(** * biochatter: the knowledge-graph reflexion agent and the schema prompt builder

    A shallow embedding of [biochatter/kg_langgraph_agent.py] and
    [biochatter/prompts.py].  Python values that come out of [json.loads],
    [yaml.safe_load] or a tool call are modelled dynamically (type [json]),
    Python exceptions by the type [exn], and code that mutates the agent while
    it may raise by a state-and-exception monad [M]. *)

From Stdlib Require Import ZArith Ascii String Lia.
From stdpp Require Import gmap strings list fin_maps.

#[local] Set Warnings "-register-all".
#[local] Open Scope string_scope.
#[local] Open Scope list_scope.

(** ** Python values, exceptions *)

(** What [json.loads] and [yaml.safe_load] produce; [JNull] is Python's [None].
    A [dict] is a finite map: its keys are unique. *)
Inductive json : Type :=
| JNull
| JBool (b : bool)
| JNum (z : Z)
| JStr (s : string)
| JArr (l : list json)
| JObj (m : gmap string json).

(** The exceptions the two modules can meet.  [ValueError] carries its message,
    [Exception] stands for whatever the database driver or its constructor
    raises. *)
Inductive exn : Type :=
| IndexError
| KeyError (k : string)
| TypeError
| AttributeError
| UnboundLocalError
| JSONDecodeError
| ValueError (msg : string)
| Exception (msg : string).

Inductive result (A : Type) : Type :=
| Ok (a : A)
| Raise (e : exn).
Arguments Ok {A} a.
Arguments Raise {A} e.

#[global] Instance result_ret : MRet result := fun A a => Ok a.
#[global] Instance result_bind : MBind result := fun A B f r =>
  match r with
  | Ok a => f a
  | Raise e => Raise e
  end.

(** A string as [json.loads] sees it: either the output of [json.dumps] on a
    value, which parses back to that value, or a text that is no JSON document
    (the empty string, for one), on which [json.loads] raises. *)
Inductive text : Type :=
| NotJson (s : string)
| Serialized (j : json).

Definition json_dumps (j : json) : text := Serialized j.

Definition json_loads (t : text) : result json :=
  match t with
  | Serialized j => Ok j
  | NotJson _ => Raise JSONDecodeError
  end.

(** [bool(x)] *)
Definition py_truthy (j : json) : bool :=
  match j with
  | JNull => false
  | JBool b => b
  | JNum z => negb (z =? 0)%Z
  | JStr s => negb (String.eqb s "")
  | JArr l => match l with [] => false | _ => true end
  | JObj m => negb (bool_decide (m = ∅))
  end.

(** [len(x)] *)
Definition py_len (j : json) : result nat :=
  match j with
  | JStr s => Ok (String.length s)
  | JArr l => Ok (length l)
  | JObj m => Ok (size m)
  | _ => Raise TypeError
  end.

(** [x[k]] for a string [k] *)
Definition py_getitem (j : json) (k : string) : result json :=
  match j with
  | JObj m => match m !! k with Some v => Ok v | None => Raise (KeyError k) end
  | _ => Raise TypeError
  end.

Definition chars (s : string) : list string :=
  (fun c => String c EmptyString) <$> list_ascii_of_string s.

(** [for y in x]: the items a loop over [x] visits *)
Definition py_iter (j : json) : result (list json) :=
  match j with
  | JArr l => Ok l
  | JObj m => Ok (JStr <$> (map_to_list m).*1)
  | JStr s => Ok (JStr <$> chars s)
  | _ => Raise TypeError
  end.

(** [x.keys()] for the loop of [_get_last_tool_results_num], which tests the
    value of every key and whose outcome is the same in whatever order the
    keys come ([scan_keys_any_order], [scan_keys_insertion_order]): the keys
    are taken in the order of the map, which is not Python's order of
    insertion. *)
Definition py_keys (j : json) : result (list string) :=
  match j with
  | JObj m => Ok (map_to_list m).*1
  | _ => Raise AttributeError
  end.

(** The order in which a [dict] lists its keys is the order of their insertion;
    for an entry of the schema, the order of the configuration file.  The map
    of a [JObj] does not record it, so it comes from outside: [insertion_order]
    lists every key of the map once, in an order of its own. *)
Class KeyOrder : Type := {
  insertion_order : gmap string json → list string;
  insertion_order_keys (m : gmap string json) : insertion_order m ≡ₚ (map_to_list m).*1
}.

(** [list(x.keys())] *)
Definition py_list_keys `{KeyOrder} (j : json) : result (list string) :=
  match j with
  | JObj m => Ok (insertion_order m)
  | _ => Raise AttributeError
  end.

(** [seq[0]] on a list or tuple *)
Definition py_first {A} (l : list A) : result A :=
  match l with
  | x :: _ => Ok x
  | [] => Raise IndexError
  end.

(** ** State and exceptions *)

Definition M (S A : Type) : Type := S → result A * S.

#[global] Instance M_ret {S} : MRet (M S) := fun A a s => (Ok a, s).
#[global] Instance M_bind {S} : MBind (M S) := fun A B f c s =>
  match c s with
  | (Ok a, s') => f a s'
  | (Raise e, s') => (Raise e, s')
  end.

Definition lift {S A} (r : result A) : M S A := fun s => (r, s).
Definition get {S} : M S S := fun s => (Ok s, s).
Definition modify {S} (f : S → S) : M S unit := fun s => (Ok tt, f s).

(** [try: body  except Exception as e: handler(e)] *)
Definition try_except {S A} (body : M S A) (handler : exn → M S A) : M S A :=
  fun s =>
    match body s with
    | (Ok a, s') => (Ok a, s')
    | (Raise e, s') => handler e s'
    end.

(** [for x in l: body(x)], no [break] *)
Fixpoint for_each {S A} (l : list A) (body : A → M S unit) : M S unit :=
  match l with
  | [] => mret tt
  | x :: l' => body x ≫= fun _ => for_each l' body
  end.

(** ** kg_langgraph_agent.py *)

Definition SEARCH_QUERIES : string := "search_queries".
Definition SEARCH_QUERIES_DESCRIPTION : string := "query for genomicKB graph database".
Definition REVISED_QUERY : string := "revised_query".
Definition REVISED_QUERY_DESCRIPTION : string := "Revised query".

(** One entry of [JsonOutputToolsParser(return_id=True).invoke(message)]:
    [{"type": ..., "args": {...}, "id": ...}]. *)
Record tool_call : Type := ToolCall {
  tc_id : string;
  tc_args : gmap string json
}.

(** The conversation state is a list of messages.  The content of a
    [ToolMessage] is the text [_tool_function] gave it. *)
Inductive message : Type :=
| HumanMessage (content : string)
| AIMessage (tool_calls : list tool_call)
| ToolMessage (content : text) (tool_call_id : string).

(** [self.parser.invoke(message)]: the tool calls of an assistant message, and
    no call for any other message. *)
Definition parser_invoke (m : message) : list tool_call :=
  match m with
  | AIMessage calls => calls
  | _ => []
  end.

(** The node names [langgraph_agent_base] exports. *)
Inductive node : Type := END_NODE | EXECUTE_TOOL_NODE.

Definition node_eqb (a b : node) : bool :=
  match a, b with
  | END_NODE, END_NODE | EXECUTE_TOOL_NODE, EXECUTE_TOOL_NODE => true
  | _, _ => false
  end.

(** [res[k] is None], or [res[k]] is the string ["None"] or ["null"]: the
    two [continue] tests of [_get_last_tool_results_num]. *)
Definition null_like (v : json) : bool :=
  match v with
  | JNull => true
  | JStr s => String.eqb s "None" || String.eqb s "null"
  | _ => false
  end.

(** [for k in res.keys(): ...] with [empty] still [True] on entry; the value is
    [empty] when the loop is left ([break] after [empty = False], or the keys
    are used up). *)
Fixpoint scan_keys (res : json) (keys : list string) : result bool :=
  match keys with
  | [] => Ok true
  | k :: keys' =>
      v ← py_getitem res k;
      if null_like v then scan_keys res keys' else Ok false
  end.

(** [for res in results["result"]: ...; if not empty: break] *)
Fixpoint scan_rows (rows : list json) : result bool :=
  match rows with
  | [] => Ok true
  | res :: rows' =>
      keys ← py_keys res;
      no_value ← scan_keys res keys;
      if (no_value : bool) then scan_rows rows' else Ok false
  end.

(** The body of the loop of [_get_last_tool_results_num] for a [ToolMessage]. *)
Definition count_results (content : text) : result nat :=
  results ← json_loads content;
  r ← py_getitem results "result";
  n ← py_len r;
  no_value ← (if (0 <? n)%nat then rows ← py_iter r; scan_rows rows else Ok true);
  Ok (if (no_value : bool) then 0%nat else n).

(** [for m in state[::-1]: if not isinstance(m, ToolMessage): continue; ...; return ...]
    and [return 0] after the loop. *)
Fixpoint last_tool_results_num (reversed : list message) : result nat :=
  match reversed with
  | [] => Ok 0%nat
  | ToolMessage content _ :: _ => count_results content
  | _ :: rest => last_tool_results_num rest
  end.

Definition _get_last_tool_results_num (state : list message) : result nat :=
  last_tool_results_num (rev state).

(** [_should_continue]: [super_should_continue] is the decision of the base
    class [ReflexionAgent], which this method consults first. *)
Definition _should_continue (super_should_continue : list message → node)
    (state : list message) : result node :=
  let res := super_should_continue state in
  if node_eqb res END_NODE then Ok res
  else
    query_results_num ← _get_last_tool_results_num state;
    Ok (if (0 <? query_results_num)%nat then END_NODE else EXECUTE_TOOL_NODE).

(** [self.parser.invoke(output)[0]["args"]["answer"]] *)
Definition _parse_final_result (output : message) : result json :=
  parsed ← py_first (parser_invoke output);
  py_getitem (JObj (tc_args parsed)) "answer".

(** [{"query": query, "result": item}] *)
Definition tool_result (query item : json) : json :=
  JObj {[ "query" := query; "result" := item ]}.

(** The database driver of [neo4j_utils]: [nu_Driver db_name db_uri] is the
    constructor [nu.Driver(db_name=..., db_uri=...)], [Driver_query d q] is
    [d.query(q)], a sequence whose item 0 [_tool_function] keeps (the driver
    answers with the pair of the rows and a summary of the query).  Either may
    raise. *)
Class Neo4j (Driver : Type) : Type := {
  nu_Driver : string → string → result Driver;
  Driver_query : Driver → json → result (list json)
}.

Section KGQueryReflexionAgent.

Context `{Neo4j Driver}.

(** The agent's mutable fields, the records [logger.error] received (oldest
    first), and the local list [results] of [_tool_function]. *)
Record store : Type := Store {
  connection_args : gmap string string;
  neodriver : option Driver;
  logged : list exn;
  results : list json
}.

Definition logger_error (e : exn) : M store unit :=
  modify (fun s => Store (connection_args s) (neodriver s) (logged s ++ [e]) (results s)).

Definition set_neodriver (d : Driver) : M store unit :=
  modify (fun s => Store (connection_args s) (Some d) (logged s) (results s)).

Definition set_results (rs : list json) : M store unit :=
  modify (fun s => Store (connection_args s) (neodriver s) (logged s) rs).

Definition results_append (r : json) : M store unit :=
  modify (fun s => Store (connection_args s) (neodriver s) (logged s) (results s ++ [r])).

(** [a + b] where [b] came from [dict.get]: [str + None] is a [TypeError] *)
Definition py_add (a : string) (b : option string) : result string :=
  match b with
  | Some s => Ok (a +:+ s)
  | None => Raise TypeError
  end.

(** [x or "neo4j"] *)
Definition or_neo4j (x : option string) : string :=
  match x with
  | Some s => if String.eqb s "" then "neo4j" else s
  | None => "neo4j"
  end.

Definition _connect_db : M store unit :=
  s ← get;
  match neodriver s with
  | Some _ => mret tt
  | None =>
      try_except
        (u ← lift (py_add "bolt://" (connection_args s !! "host"));
         db_uri ← lift (py_add (u +:+ ":") (connection_args s !! "port"));
         d ← lift (nu_Driver (or_neo4j (connection_args s !! "db_name")) db_uri);
         set_neodriver d)
        logger_error
  end.

Definition _query_graph_database (query : json) : M store (list json) :=
  _connect_db;;
  try_except
    (s ← get;
     match neodriver s with
     | Some d => lift (Driver_query d query)
     | None => lift (Raise AttributeError)
     end)
    (fun e => logger_error e;; mret []).

(** The conditional expression that picks the revised query, [JNull] being
    Python's [None]. *)
Definition revised_query (parsed_args : gmap string json) : json :=
  match parsed_args !! REVISED_QUERY with
  | Some q => q
  | None =>
      match parsed_args !! REVISED_QUERY_DESCRIPTION with
      | Some q => q
      | None => JNull
      end
  end.

Definition is_None (j : json) : bool :=
  match j with
  | JNull => true
  | _ => false
  end.

(** [result = self._query_graph_database(query)] and
    [results.append({"query": query, "result": result[0]})] *)
Definition run_query (query : json) : M store unit :=
  result ← _query_graph_database query;
  item ← lift (py_first result);
  results_append (tool_result query item).

(** The body of [for parsed_message in parsed_tool_messages], a [try] whose
    handler logs and goes on with the next message. *)
Definition run_tool_call (parsed_message : tool_call) : M store unit :=
  try_except
    (let parsed_args := tc_args parsed_message in
     let query := revised_query parsed_args in
     if is_None query then
       queries ← lift (match parsed_args !! SEARCH_QUERIES with
                       | Some qs => Ok qs
                       | None => py_getitem (JObj parsed_args) SEARCH_QUERIES_DESCRIPTION
                       end);
       qs ← lift (py_iter queries);
       for_each qs run_query
     else run_query query)
    logger_error.

(** [res["result"] and len(res["result"]) > 0] *)
Definition result_nonempty (res : json) : result bool :=
  r ← py_getitem res "result";
  if py_truthy r then n ← py_len r; Ok (0 <? n)%nat else Ok false.

(** [for res in results: if ...: content = json.dumps(res)]; the loop has no
    [break]. *)
Fixpoint pick_content (rs : list json) (content : option text) : result (option text) :=
  match rs with
  | [] => Ok content
  | res :: rs' =>
      b ← result_nonempty res;
      pick_content rs' (if (b : bool) then Some (json_dumps res) else content)
  end.

(** [if content is None: content = json.dumps(results[0]) if len(results) > 0 else ""] *)
Definition kept_content (content : option text) (results : list json) : text :=
  match content with
  | Some c => c
  | None =>
      match results with
      | r :: _ => json_dumps r
      | [] => NotJson ""
      end
  end.

Definition _tool_function (state : list message) : M store message :=
  tool_message ← lift (match last state with
                       | Some m => Ok m
                       | None => Raise IndexError
                       end);
  let parsed_tool_messages := parser_invoke tool_message in
  set_results [];;
  for_each parsed_tool_messages run_tool_call;;
  s ← get;
  content ← lift (if (1 <? length (results s))%nat
                  then pick_content (results s) None
                  else Ok None);
  let content := kept_content content (results s) in
  parsed_message ← lift (match last parsed_tool_messages with
                         | Some pm => Ok pm
                         | None => Raise UnboundLocalError
                         end);
  mret (ToolMessage content (tc_id parsed_message)).

End KGQueryReflexionAgent.

Arguments store Driver : clear implicits.

(** ** The reflexion loop *)

Definition is_AIMessage (m : message) : bool :=
  match m with
  | AIMessage _ => true
  | _ => false
  end.

(** Modelled from the spec: the count of generate/revise cycles behind the
    step budget of [ReflexionAgent] ([biochatter/langgraph_agent_base.py] is
    not among the sources).  Each cycle is one call of the language model and
    appends one assistant message to the conversation state. *)
Definition num_cycles (state : list message) : nat :=
  length (List.filter is_AIMessage state).

(** Modelled from the spec: the step-budget test of
    [ReflexionAgent._should_continue] ([biochatter/langgraph_agent_base.py] is
    not among the sources).  The loop goes on "if the step budget remains" and
    stops "if the budget is exhausted", and it "never performs more
    generate/revise cycles than the configured step budget". *)
Definition ReflexionAgent_should_continue (max_steps : Z) (state : list message) : node :=
  if (max_steps <=? Z.of_nat (num_cycles state))%Z then END_NODE else EXECUTE_TOOL_NODE.

(** The default of [max_steps] in [KGQueryReflexionAgent.__init__]. *)
Definition default_max_steps : Z := 20.

Inductive transition : Type := Generate | Execute | Revise.

Definition is_cycle (t : transition) : bool :=
  match t with
  | Generate | Revise => true
  | Execute => false
  end.

Definition cycles (trace : list transition) : nat :=
  length (List.filter is_cycle trace).

(** Modelled from the spec: "the current proposal" whose answer field the loop
    of [ReflexionAgent] (absent from the sources) returns, the last assistant
    message of the state. *)
Definition current_proposal (state : list message) : result message :=
  py_first (List.filter is_AIMessage (rev state)).

Section ReflexionLoop.

Context `{Neo4j Driver}.

(** The two responders: the tool calls the language model answers with, given
    the conversation so far. *)
Variable initial_responder : list message → list tool_call.
Variable revise_responder : list message → list tool_call.

(** The decision of the base class, which [_should_continue] consults first. *)
Variable super_should_continue : list message → node.

(** What one question leaves behind: the transitions taken, the conversation,
    the agent, and the answer returned (or the exception that ended the run). *)
Record run : Type := Run {
  trace : list transition;
  messages : list message;
  agent : store Driver;
  answer : result json
}.

(** Modelled from the spec: transition "execute" of the loop of
    [ReflexionAgent] (absent from the sources), with the tool executor of
    [KGQueryReflexionAgent].  An exception of the tool step is "logged and
    treated as an empty result for that turn": no tool message is added. *)
Definition execute_tool (state : list message) (s : store Driver) : list message * store Driver :=
  match _tool_function state s with
  | (Ok m, s') => (state ++ [m], s')
  | (Raise e, s') => (state, snd (logger_error e s'))
  end.

(** Modelled from the spec: the transitions "execute", revise and "evaluate"
    of the loop of [ReflexionAgent] (absent from the sources), repeated: "stop
    and return the current proposal's primary answer field", or "invoke the
    LLM again with the revision instruction [...] and loop".  The order of the
    three is the one the sources of the agent fix: [_should_continue] names
    the tool node as the node to go on with, [_tool_function] reads the tool
    calls of the last message of the state, and [_parse_final_result] those of
    the message the run ends with.  So every execution is followed by a
    revision, and the decision is taken on a state that ends with the revised
    proposal.  The decision is [_should_continue]; an exception it raises
    ends the run.  [fuel] bounds the number of further rounds, [None] means
    it ran out. *)
Fixpoint revise_loop (fuel : nat) (state : list message) (s : store Driver)
    (tr : list transition) : option run :=
  let '(state1, s1) := execute_tool state s in
  let state2 := state1 ++ [AIMessage (revise_responder state1)] in
  let tr2 := tr ++ [Execute; Revise] in
  match _should_continue super_should_continue state2 with
  | Raise e => Some (Run tr2 state2 s1 (Raise e))
  | Ok END_NODE =>
      Some (Run tr2 state2 s1 (output ← current_proposal state2; _parse_final_result output))
  | Ok EXECUTE_TOOL_NODE =>
      match fuel with
      | O => None
      | S fuel' => revise_loop fuel' state2 s1 tr2
      end
  end.

(** Modelled from the spec: [ReflexionAgent.execute] (absent from the
    sources).  "Initial state: no proposal yet"; transition "generate": the
    "first LLM call produces a query proposal"; then the loop above. *)
Definition ReflexionAgent_execute (fuel : nat) (question : string) (s : store Driver) :
    option run :=
  let state0 := [HumanMessage question] in
  let state1 := state0 ++ [AIMessage (initial_responder state0)] in
  revise_loop fuel state1 s [Generate].

End ReflexionLoop.

(** ** prompts.py *)

(** [c.lower()] on the ASCII letters *)
Definition lower_ascii (c : ascii) : ascii :=
  let n := nat_of_ascii c in
  if (65 <=? n)%nat && (n <=? 90)%nat then ascii_of_nat (n + 32) else c.

(** [s.lower()] *)
Fixpoint lower (s : string) : string :=
  match s with
  | EmptyString => EmptyString
  | String c s' => String (lower_ascii c) (lower s')
  end.

(** [sub in s] for two strings *)
Fixpoint contains (sub s : string) : bool :=
  String.prefix sub s ||
  match s with
  | EmptyString => false
  | String _ s' => contains sub s'
  end.

(** [s.split(sep)] for a one-character separator *)
Fixpoint split (sep : ascii) (s : string) : list string :=
  match s with
  | EmptyString => [EmptyString]
  | String c s' =>
      if Ascii.eqb c sep then EmptyString :: split sep s'
      else
        match split sep s' with
        | piece :: pieces => String c piece :: pieces
        | [] => [String c EmptyString]
        end
  end.

(** [x == s] for a string [s] *)
Definition py_eq_str (x : json) (s : string) : bool :=
  match x with
  | JStr t => String.eqb t s
  | _ => false
  end.

Definition name_indicates_relationship (key : string) : bool :=
  contains "interaction" (lower key) || contains "association" (lower key).

Definition NO_QUESTION : string :=
  "No question provided, and no question from entity selection step available. Please provide a question or run the entity selection (`select_entities()`) step first.".

Definition NO_ENTITIES : string :=
  "No entities or relationships provided, and none available from entity selection step. Please provide entities/relationships or run the entity selection (`select_entities()`) step first.".

(** The attributes of a [BioCypherPrompt].  A schema entry is a [dict];
    [selected_properties] does not exist before [select_properties] sets it. *)
Record BioCypherPrompt : Type := Prompt {
  entities : gmap string (gmap string json);
  relationships : gmap string (gmap string json);
  question : string;
  selected_entities : list string;
  selected_relationships : list string;
  selected_relationship_labels : list json;
  selected_properties : option json
}.

(** [msg.split(",") if msg else []] *)
Definition reply_names (msg : string) : list string :=
  if String.eqb msg "" then [] else split "," msg.

Section Prompts.

(** [biocypher._misc.sentencecase_to_pascalcase] *)
Variable sentencecase_to_pascalcase : string → string.

(** The two conversations with the language model: the reply [msg] of
    [conversation.query(question)], given what the system message was built
    from.  A query may raise. *)
Variable entity_selector :
  gmap string (gmap string json) → gmap string (gmap string json) → string → result string.
Variable property_selector :
  gmap string (list string) → gmap string (list string) → string → result text.

Context {key_order : KeyOrder}.

(** The body of [for key, value in schema_config.items()], on the two
    dictionaries under construction. *)
Definition index_entry
    (idx : gmap string (gmap string json) * gmap string (gmap string json))
    (item : string * gmap string json) :
    gmap string (gmap string json) * gmap string (gmap string json) :=
  let '(key, value) := item in
  let indicates := name_indicates_relationship key in
  match value !! "represented_as" with
  | Some represented_as =>
      if py_eq_str represented_as "node" && negb indicates
      then (<[sentencecase_to_pascalcase key := value]> idx.1, idx.2)
      else if py_eq_str represented_as "node" && indicates
      then (idx.1, <[sentencecase_to_pascalcase key := value]> idx.2)
      else if py_eq_str represented_as "edge"
      then (idx.1, <[sentencecase_to_pascalcase key := value]> idx.2)
      else idx
  | None => idx
  end.

(** [__init__], from the dictionary [yaml.safe_load] returned, as the list of
    its items in order. *)
Definition BioCypherPrompt__init__ (schema_config : list (string * gmap string json)) :
    BioCypherPrompt :=
  let idx := foldl index_entry (∅, ∅) schema_config in
  Prompt idx.1 idx.2 "" [] [] [] None.

Definition set_question (q : string) : M BioCypherPrompt unit :=
  modify (fun self =>
    Prompt (entities self) (relationships self) q (selected_entities self)
      (selected_relationships self) (selected_relationship_labels self)
      (selected_properties self)).

Definition set_selected_properties (p : json) : M BioCypherPrompt unit :=
  modify (fun self =>
    Prompt (entities self) (relationships self) (question self) (selected_entities self)
      (selected_relationships self) (selected_relationship_labels self) (Some p)).

(** The body of [for entity_or_relationship in result] *)
Definition select_name (self : BioCypherPrompt) (name : string) : BioCypherPrompt :=
  match entities self !! name with
  | Some _ =>
      Prompt (entities self) (relationships self) (question self)
        (selected_entities self ++ [name])
        (selected_relationships self) (selected_relationship_labels self)
        (selected_properties self)
  | None =>
      match relationships self !! name with
      | Some value =>
          Prompt (entities self) (relationships self) (question self)
            (selected_entities self)
            (selected_relationships self ++ [name])
            (selected_relationship_labels self ++ [default (JStr name) (value !! "label_as_edge")])
            (selected_properties self)
      | None => self
      end
  end.

Definition select_entities (question : string) : M BioCypherPrompt bool :=
  set_question question;;
  self ← get;
  msg ← lift (entity_selector (entities self) (relationships self) question);
  let result := reply_names msg in
  modify (fun self => foldl select_name self result);;
  mret (match result with [] => false | _ => true end).

(** [x or y] on strings and on lists, [x] optional *)
Definition or_str (x : option string) (y : string) : string :=
  match x with
  | Some s => if String.eqb s "" then y else s
  | None => y
  end.

Definition or_list (x : option (list string)) (y : list string) : list string :=
  match x with
  | Some (a :: l) => a :: l
  | _ => y
  end.

(** One of the two loops that fill [e_props] and [r_props]: for each name, the
    keys of the entry's ["properties"], when it has any. *)
Fixpoint props_of (schema : gmap string (gmap string json)) (names : list string)
    (props : gmap string (list string)) : result (gmap string (list string)) :=
  match names with
  | [] => Ok props
  | name :: names' =>
      entry ← match schema !! name with
              | Some e => Ok e
              | None => Raise (KeyError name)
              end;
      match (entry : gmap string json) !! "properties" with
      | Some p =>
          if py_truthy p
          then keys ← py_list_keys p; props_of schema names' (<[name := keys]> props)
          else props_of schema names' props
      | None => props_of schema names' props
      end
  end.

Definition text_truthy (t : text) : bool :=
  match t with
  | NotJson s => negb (String.eqb s "")
  | Serialized _ => true
  end.

Definition select_properties (question_ : option string)
    (entities_ : option (list string)) (relationships_ : option (list string)) :
    M BioCypherPrompt bool :=
  self ← get;
  let q := or_str question_ (question self) in
  if String.eqb q "" then lift (Raise (ValueError NO_QUESTION))
  else
    let es := or_list entities_ (selected_entities self) in
    let rs := or_list relationships_ (selected_relationships self) in
    match es, rs with
    | [], [] => lift (Raise (ValueError NO_ENTITIES))
    | _, _ =>
        e_props ← lift (props_of (entities self) es ∅);
        r_props ← lift (props_of (relationships self) rs ∅);
        msg ← lift (property_selector e_props r_props q);
        props ← lift (if text_truthy msg then json_loads msg else Ok (JObj ∅));
        set_selected_properties props;;
        mret (py_truthy props)
    end.

End Prompts.

(** ** Vocabulary of the statements *)

(** A field of a result row holds no value: it is null, the string ["None"] or
    the string ["null"]. *)
Definition null_field (v : json) : Prop :=
  v = JNull ∨ v = JStr "None" ∨ v = JStr "null".

Definition is_ToolMessage (m : message) : bool :=
  match m with
  | ToolMessage _ _ => true
  | _ => false
  end.

(** A row without a value, decided. *)
Definition row_blank (row : gmap string json) : bool :=
  forallb (fun kv => null_like kv.2) (map_to_list row).

Section ToolExecutorVocabulary.

Context `{Neo4j Driver}.

(** The agent after [results.append(r)]. *)
Definition with_result (s : store Driver) (r : json) : store Driver :=
  Store (connection_args s) (neodriver s) (logged s) (results s ++ [r]).

(** A record of [results]: some query, with the item 0 of a response the
    database gave to it. *)
Definition recorded (r : json) : Prop :=
  ∃ query item rest (s s1 : store Driver),
    r = tool_result query item ∧
    _query_graph_database query s = (Ok (item :: rest), s1).

(** The agent once the loop of [_tool_function] over the tool calls is done. *)
Definition after_calls (calls : list tool_call) (s : store Driver) : store Driver :=
  (for_each calls run_tool_call (set_results [] s).2).2.

End ToolExecutorVocabulary.

(** The names [select_entities] adds to [selected_entities] and to
    [selected_relationships], out of the names of the reply. *)
Definition added_entities (self : BioCypherPrompt) (names : list string) : list string :=
  filter (fun name => is_Some (entities self !! name)) names.

Definition added_relationships (self : BioCypherPrompt) (names : list string) : list string :=
  filter (fun name => entities self !! name = None ∧ is_Some (relationships self !! name)) names.

(** An optional argument that is absent or falsy. *)
Definition unset_str (x : option string) : Prop := x = None ∨ x = Some "".
Definition unset_list (x : option (list string)) : Prop := x = None ∨ x = Some [].

(** The declared representation of a schema entry is [kind]. *)
Definition represented_as (value : gmap string json) (kind : string) : Prop :=
  value !! "represented_as" = Some (JStr kind).

(** The lowercased name contains "interaction" or "association". *)
Definition relationship_name (key : string) : Prop :=
  contains "interaction" (lower key) = true ∨ contains "association" (lower key) = true.

Definition entity_entry (key : string) (value : gmap string json) : Prop :=
  represented_as value "node" ∧ ¬ relationship_name key.

Definition relationship_entry (key : string) (value : gmap string json) : Prop :=
  represented_as value "edge" ∨ (represented_as value "node" ∧ relationship_name key).

(** ** A database, proposals and a schema for the examples *)

Definition gene_rows : json := JArr [JObj {[ "g.name" := JStr "TP53" ]}].
Definition protein_rows : json :=
  JArr [JObj {[ "p.name" := JStr "P04637" ]}; JObj {[ "p.name" := JNull ]}].

(** A database that answers four queries and rejects every other query; a
    response is the pair of the rows and a summary. *)
Definition sample_query (d : unit) (query : json) : result (list json) :=
  match query with
  | JStr "MATCH (g:Gene) RETURN g.name" =>
      Ok [gene_rows; JNull]
  | JStr "MATCH (p:Protein) RETURN p.name" =>
      Ok [protein_rows; JNull]
  | JStr "MATCH (d:Disease) RETURN d.name" =>
      Ok [JArr [JObj {[ "d.name" := JNull ]}]; JNull]
  | JStr "MATCH (w:Pathway) RETURN w.name" =>
      Ok [JArr []; JNull]
  | _ => Raise (Exception "Neo.ClientError.Statement.SyntaxError")
  end.

Definition sample_db : Neo4j unit :=
  {| nu_Driver := fun db_name db_uri => Ok tt; Driver_query := sample_query |}.

(** A database that cannot be reached. *)
Definition unreachable_db : Neo4j unit :=
  {| nu_Driver := fun db_name db_uri => Raise (Exception "ServiceUnavailable");
     Driver_query := sample_query |}.

Definition sample_store : store unit :=
  Store {[ "host" := "localhost"; "port" := "7687" ]} None [] [].

(** A [GenerateQuery] tool call with the given search queries. *)
Definition generate_query (id : string) (search_queries : list string) : tool_call :=
  ToolCall id {[ "answer" := JStr "MATCH (g:Gene) RETURN g";
                 "reflection" := JStr "too broad";
                 SEARCH_QUERIES := JArr (JStr <$> search_queries) ]}.

Definition gene_query : string := "MATCH (g:Gene) RETURN g.name".
Definition protein_query : string := "MATCH (p:Protein) RETURN p.name".
Definition disease_query : string := "MATCH (d:Disease) RETURN d.name".
Definition pathway_query : string := "MATCH (w:Pathway) RETURN w.name".

(** A [ReviseQuery] tool call. *)
Definition revise_query (id : string) (revised : string) : tool_call :=
  ToolCall id {[ "answer" := JStr revised;
                 "reflection" := JStr "no rows";
                 SEARCH_QUERIES := JArr [];
                 REVISED_QUERY := JStr revised ]}.

(** A model that first asks for the genes, and one that first asks for the
    diseases (all of whose names are null) and never revises to anything
    else. *)
Definition gene_responder (state : list message) : list tool_call :=
  [generate_query "call_1" [gene_query]].

Definition disease_responder (state : list message) : list tool_call :=
  [generate_query "call_1" [disease_query]].

Definition disease_reviser (state : list message) : list tool_call :=
  [revise_query "call_2" disease_query].

(** A schema whose names are in Pascal case already. *)
Definition sample_schema : list (string * gmap string json) :=
  [("Protein", {[ "represented_as" := JStr "node" ]});
   ("GeneDiseaseAssociation", {[ "represented_as" := JStr "node" ]});
   ("Binds", {[ "represented_as" := JStr "edge"; "label_as_edge" := JStr "BINDS" ]});
   ("Comment", ∅)].

Definition sample_prompt : BioCypherPrompt :=
  BioCypherPrompt__init__ (fun name => name) sample_schema.

Definition sample_entity_selector
    (entities relationships : gmap string (gmap string json)) (question : string) :
    result string :=
  Ok "Protein,Binds,Pathway".

Definition sample_property_selector
    (e_props r_props : gmap string (list string)) (question : string) : result text :=
  Ok (json_dumps (JObj ∅)).

(** A database that answers every query with the two protein rows. *)
Definition protein_db : Neo4j unit :=
  {| nu_Driver := fun db_name db_uri => Ok tt;
     Driver_query := fun d query => Ok [protein_rows; JNull] |}.

(** The order of the keys in the examples: the one of the map, in which the
    schemas below list their properties. *)
#[global] Instance sample_key_order : KeyOrder :=
  {| insertion_order m := (map_to_list m).*1;
     insertion_order_keys m := reflexivity _ |}.

(** A schema with properties, and a model that selects one of them. *)
Definition detailed_schema : list (string * gmap string json) :=
  [("Protein", {[ "represented_as" := JStr "node";
                  "properties" := JObj {[ "name" := JStr "str"; "taxon" := JStr "int" ]} ]});
   ("Binds", {[ "represented_as" := JStr "edge" ]})].

Definition detailed_prompt : BioCypherPrompt :=
  BioCypherPrompt__init__ (fun name => name) detailed_schema.

Definition name_property_selector
    (e_props r_props : gmap string (list string)) (question : string) : result text :=
  Ok (json_dumps (JObj {[ "Protein" := JArr [JStr "name"] ]})).

(** ** Vocabulary of the further properties *)

Section AgentVocabulary.

Context `{Neo4j Driver}.

(** The agent after [logger.error(e)]. *)
Definition with_logged (s : store Driver) (e : exn) : store Driver :=
  Store (connection_args s) (neodriver s) (logged s ++ [e]) (results s).

(** The agent after [self.neodriver = d]. *)
Definition with_neodriver (s : store Driver) (d : Driver) : store Driver :=
  Store (connection_args s) (Some d) (logged s) (results s).

(** What the agent keeps from [s] to [s1]: its connection arguments, what it
    has logged so far, and its driver once it is connected. *)
Definition keeps (s s1 : store Driver) : Prop :=
  connection_args s1 = connection_args s ∧
  logged s `prefix_of` logged s1 ∧
  (neodriver s = None ∨ neodriver s1 = neodriver s).

(** The driver answers a query with a sequence whose item 0 is a list of
    rows, each a [dict]. *)
Definition rows_driver : Prop :=
  ∀ d query item rest,
    Driver_query d query = Ok (item :: rest) →
    ∃ rows : list (gmap string json), item = JArr (JObj <$> rows).

End AgentVocabulary.

(** The [db_uri] of [_connect_db], when host and port are there. *)
Definition bolt_uri (host port : string) : string :=
  (("bolt://" +:+ host) +:+ ":") +:+ port.

(** A record whose ["result"] is a list of rows, each a [dict]. *)
Definition rows_record (r : json) : Prop :=
  ∃ query (rows : list (gmap string json)), r = tool_result query (JArr (JObj <$> rows)).

(** The ["result"] of a record is a non-empty list. *)
Definition has_rows (r : json) : bool :=
  match py_getitem r "result" with
  | Ok (JArr (_ :: _)) => true
  | _ => false
  end.

(** The record a tool message serializes: the last one with rows, and the
    first one when none has rows. *)
Definition kept_record (rs : list json) : option json :=
  match last (List.filter has_rows rs) with
  | Some r => Some r
  | None => head rs
  end.

Definition content_of (r : option json) : text :=
  match r with
  | Some r => json_dumps r
  | None => NotJson ""
  end.

(** [self.relationships[name].get("label_as_edge", name)] *)
Definition edge_label (self : BioCypherPrompt) (name : string) : json :=
  default (JStr name) (relationships self !! name ≫= (fun value => value !! "label_as_edge")).

(** The prompt after [self.question = q], and after
    [self.selected_properties = p]. *)
Definition with_question (self : BioCypherPrompt) (q : string) : BioCypherPrompt :=
  Prompt (entities self) (relationships self) q (selected_entities self)
    (selected_relationships self) (selected_relationship_labels self)
    (selected_properties self).

Definition with_selected_properties (self : BioCypherPrompt) (p : json) : BioCypherPrompt :=
  Prompt (entities self) (relationships self) (question self) (selected_entities self)
    (selected_relationships self) (selected_relationship_labels self) (Some p).


(** Two characters are the same letter: they are equal, or one is an ASCII
    capital and the other its small letter. *)
Definition same_letter (c c' : ascii) : Prop :=
  c = c' ∨
  (65 ≤ nat_of_ascii c ≤ 90 ∧ nat_of_ascii c' = nat_of_ascii c + 32)%nat ∨
  (65 ≤ nat_of_ascii c' ≤ 90 ∧ nat_of_ascii c = nat_of_ascii c' + 32)%nat.

(** Two strings that differ in the case of ASCII letters only. *)
Fixpoint caseless (s t : string) : Prop :=
  match s, t with
  | EmptyString, EmptyString => True
  | String c s', String c' t' => same_letter c c' ∧ caseless s' t'
  | _, _ => False
  end.





(** * Properties *)

(** ** Counting the rows of the last tool result *)

Lemma null_like_iff (v : json) : null_like v = true ↔ null_field v.
Proof.
  unfold null_field. destruct v as [| | |s| |]; cbn.
  - tauto.
  - split; [done|]. intros [|[|]]; done.
  - split; [done|]. intros [|[|]]; done.
  - rewrite orb_true_iff, !String.eqb_eq. split.
    + intros [->| ->]; auto.
    + intros [|[|]]; simplify_eq; auto.
  - split; [done|]. intros [|[|]]; done.
  - split; [done|]. intros [|[|]]; done.
Qed.

Lemma scan_keys_pairs (row : gmap string json) (l : list (string * json)) :
  (∀ k v, (k, v) ∈ l → row !! k = Some v) →
  scan_keys (JObj row) l.*1 = Ok (forallb (fun kv => null_like kv.2) l).
Proof.
  induction l as [|[k v] l IH]; intros Hl; [done|].
  cbn. rewrite (Hl k v) by left. cbn.
  destruct (null_like v); [|done].
  apply IH. intros k' v' Hin. apply Hl. by right.
Qed.

Lemma scan_keys_row (row : gmap string json) :
  scan_keys (JObj row) (map_to_list row).*1 = Ok (row_blank row).
Proof. apply scan_keys_pairs. intros k v. apply elem_of_map_to_list. Qed.

(** The loop over the keys of a row gives the same in whatever order the keys
    come. *)
Lemma scan_keys_any_order (row : gmap string json) (keys : list string) :
  keys ≡ₚ (map_to_list row).*1 → scan_keys (JObj row) keys = Ok (row_blank row).
Proof.
  intros Hkeys.
  apply Permutation_map_inv in Hkeys as (l & -> & Hl).
  etrans; [apply (scan_keys_pairs row l)|].
  - intros k v Hin. apply elem_of_map_to_list. by rewrite Hl.
  - f_equal. unfold row_blank. apply eq_true_iff_eq.
    rewrite <- !Is_true_true, !forallb_True. by rewrite Hl.
Qed.

(** In particular with the keys in their order of insertion, as Python lists
    them. *)
Lemma scan_keys_insertion_order `{KeyOrder} (row : gmap string json) :
  py_list_keys (JObj row) ≫= scan_keys (JObj row) =
  py_keys (JObj row) ≫= scan_keys (JObj row).
Proof.
  cbn. by rewrite scan_keys_row, (scan_keys_any_order row _ (insertion_order_keys row)).
Qed.

Lemma scan_rows_objects (rows : list (gmap string json)) :
  scan_rows (JObj <$> rows) = Ok (forallb row_blank rows).
Proof.
  induction rows as [|row rows IH]; [done|].
  cbn. rewrite scan_keys_row. cbn. by destruct (row_blank row).
Qed.

Lemma row_blank_iff (row : gmap string json) :
  row_blank row = true ↔ map_Forall (fun _ v => null_field v) row.
Proof.
  unfold row_blank. rewrite <- Is_true_true, forallb_True, map_Forall_to_list.
  apply Forall_proper; [|done]. intros [k v]. cbn. rewrite Is_true_true. apply null_like_iff.
Qed.

Lemma rows_blank_iff (rows : list (gmap string json)) :
  forallb row_blank rows = true ↔ Forall (map_Forall (fun _ v => null_field v)) rows.
Proof.
  rewrite <- Is_true_true, forallb_True. apply Forall_proper; [|done].
  intros row. cbn. rewrite Is_true_true. apply row_blank_iff.
Qed.

Lemma rows_blank_false (rows : list (gmap string json)) :
  Exists (fun row => ∃ k v, row !! k = Some v ∧ ¬ null_field v) rows →
  forallb row_blank rows = false.
Proof.
  intros Hex. apply not_true_is_false. rewrite rows_blank_iff.
  intros Hall. apply Exists_exists in Hex as (row & Hin & k & v & Hkv & Hv).
  rewrite Forall_forall in Hall. apply Hv. by apply (Hall row Hin k v).
Qed.

Lemma count_results_rows (res : gmap string json) (rows : list (gmap string json)) :
  res !! "result" = Some (JArr (JObj <$> rows)) →
  count_results (json_dumps (JObj res)) =
    Ok (if forallb row_blank rows then 0 else length rows)%nat.
Proof.
  intros Hres. unfold count_results. cbn. rewrite Hres. cbn.
  rewrite length_fmap. destruct rows as [|row rows]; [done|].
  change (0 <? length (row :: rows))%nat with true. cbn beta iota.
  rewrite scan_rows_objects. done.
Qed.

Lemma last_tool_results_num_app (l rest : list message) :
  Forall (fun m => is_ToolMessage m = false) l →
  last_tool_results_num (l ++ rest) = last_tool_results_num rest.
Proof.
  induction 1 as [|m l Hm _ IH]; [done|].
  destruct m; try done.
Qed.

(** C1.  Let the most recent tool message of the state hold a result set
    ([after] has no tool message, the ["result"] of the record is a list of
    rows).  [_get_last_tool_results_num] returns 0 when every row has only
    fields that are null, ["None"] or ["null"] (in particular when there is no
    row), and the number of rows when some row has a field that is none of the
    three. *)
Theorem get_last_tool_results_num_counts
    (before after : list message) (id : string)
    (res : gmap string json) (rows : list (gmap string json)) :
  Forall (fun m => is_ToolMessage m = false) after →
  res !! "result" = Some (JArr (JObj <$> rows)) →
  let state := before ++ ToolMessage (json_dumps (JObj res)) id :: after in
  (Forall (map_Forall (fun _ v => null_field v)) rows →
     _get_last_tool_results_num state = Ok 0%nat) ∧
  (Exists (fun row => ∃ k v, row !! k = Some v ∧ ¬ null_field v) rows →
     _get_last_tool_results_num state = Ok (length rows)).
Proof.
  intros Hafter Hres state.
  assert (Hnum : _get_last_tool_results_num state =
                 Ok (if forallb row_blank rows then 0 else length rows)%nat).
  { unfold _get_last_tool_results_num, state.
    rewrite rev_app_distr. cbn [rev]. rewrite <- app_assoc.
    rewrite last_tool_results_num_app by (by apply Forall_rev).
    cbn. by apply count_results_rows. }
  split; intros Hrows; rewrite Hnum.
  - apply rows_blank_iff in Hrows. by rewrite Hrows.
  - apply rows_blank_false in Hrows. by rewrite Hrows.
Qed.

Lemma get_last_tool_results_num_counts_witness :
  _get_last_tool_results_num
    [HumanMessage "Which proteins?";
     ToolMessage (json_dumps (tool_result (JStr protein_query) protein_rows)) "call_1";
     AIMessage []] = Ok 2%nat ∧
  _get_last_tool_results_num
    [ToolMessage (json_dumps (tool_result (JStr disease_query)
                                (JArr [JObj {[ "d.name" := JNull ]}]))) "call_2"] = Ok 0%nat.
Proof.
  split.
  - apply (get_last_tool_results_num_counts
             [HumanMessage "Which proteins?"] [AIMessage []] "call_1"
             {[ "query" := JStr protein_query; "result" := protein_rows ]}
             [{[ "p.name" := JStr "P04637" ]}; {[ "p.name" := JNull ]}]).
    + by repeat constructor.
    + reflexivity.
    + apply Exists_cons_hd. exists "p.name", (JStr "P04637").
      split; [reflexivity|]. intros [|[|]]; discriminate.
  - apply (get_last_tool_results_num_counts
             [] [] "call_2"
             {[ "query" := JStr disease_query; "result" := JArr [JObj {[ "d.name" := JNull ]}] ]}
             [{[ "d.name" := JNull ]}]).
    + constructor.
    + reflexivity.
    + apply Forall_singleton. apply map_Forall_singleton. by left.
Defined.

(** ** The tool executor *)

Lemma bind_Ok {S A B} (c : M S A) (f : A → M S B) s a s1 :
  c s = (Ok a, s1) → (c ≫= f) s = f a s1.
Proof. intros H. unfold mbind, M_bind. by rewrite H. Qed.

Lemma bind_Raise {S A B} (c : M S A) (f : A → M S B) s e s1 :
  c s = (Raise e, s1) → (c ≫= f) s = (Raise e, s1).
Proof. intros H. unfold mbind, M_bind. by rewrite H. Qed.

Ltac unfold_M :=
  unfold try_except, mbind, M_bind, get, lift, logger_error, set_neodriver,
    set_results, results_append, modify, mret, M_ret.

Section ToolExecutor.

Context `{Neo4j Driver}.

Lemma connect_db_returns (s : store Driver) :
  ∃ s1, _connect_db s = (Ok tt, s1) ∧ results s1 = results s.
Proof.
  unfold _connect_db. unfold_M.
  destruct (neodriver s); [by eexists|].
  destruct (py_add _ _); [|by eexists].
  destruct (py_add _ _); [|by eexists].
  destruct (nu_Driver _ _); by eexists.
Qed.

Lemma query_graph_database_returns (query : json) (s : store Driver) :
  ∃ response s1,
    _query_graph_database query s = (Ok response, s1) ∧ results s1 = results s.
Proof.
  destruct (connect_db_returns s) as (s1 & Hc & Hr).
  unfold _query_graph_database. rewrite (bind_Ok _ _ _ _ _ Hc).
  unfold_M.
  destruct (neodriver s1) as [d|]; [destruct (Driver_query d query)|]; cbn; eauto.
Qed.

Lemma query_graph_database_failure (query : json) (s : store Driver) d e :
  neodriver s = Some d → Driver_query d query = Raise e →
  _query_graph_database query s =
    (Ok [], Store (connection_args s) (neodriver s) (logged s ++ [e]) (results s)).
Proof.
  intros Hd He.
  unfold _query_graph_database, _connect_db. unfold_M.
  rewrite Hd. cbn. rewrite Hd, He. by rewrite Hd.
Qed.

Lemma run_query_step (query : json) (s : store Driver) :
  ∃ response s1,
    _query_graph_database query s = (Ok response, s1) ∧
    results s1 = results s ∧
    run_query query s =
      match response with
      | [] => (Raise IndexError, s1)
      | item :: _ => (Ok tt, with_result s1 (tool_result query item))
      end.
Proof.
  destruct (query_graph_database_returns query s) as (response & s1 & Hq & Hr).
  exists response, s1. split; [done|]. split; [done|].
  unfold run_query. rewrite (bind_Ok _ _ _ _ _ Hq).
  by destruct response.
Qed.

Lemma run_query_recorded (query : json) (s : store Driver) :
  Forall recorded (results s) →
  Forall recorded (results (run_query query s).2).
Proof.
  intros Hs.
  destruct (run_query_step query s) as (response & s1 & Hq & Hr & ->).
  destruct response as [|item rest]; cbn; rewrite Hr; [done|].
  apply Forall_app. split; [done|]. apply Forall_singleton.
  by exists query, item, rest, s, s1.
Qed.

Lemma for_each_recorded {A} (body : A → M (store Driver) unit) (l : list A) s :
  (∀ x s, Forall recorded (results s) → Forall recorded (results (body x s).2)) →
  Forall recorded (results s) →
  Forall recorded (results (for_each l body s).2).
Proof.
  intros Hbody. revert s. induction l as [|x l IH]; intros s Hs; [done|].
  cbn. unfold mbind, M_bind. specialize (Hbody x s Hs).
  destruct (body x s) as [[[]|e] s1]; cbn in *; [by apply IH|done].
Qed.

Lemma run_tool_call_recorded (parsed_message : tool_call) (s : store Driver) :
  Forall recorded (results s) →
  Forall recorded (results (run_tool_call parsed_message s).2).
Proof.
  intros Hs. unfold run_tool_call, try_except.
  match goal with |- context [match ?b s with _ => _ end] =>
    assert (Hb : Forall recorded (results (b s).2)) end.
  { destruct (is_None _); [|by apply run_query_recorded].
    unfold mbind, M_bind, lift, py_getitem.
    destruct (tc_args parsed_message !! SEARCH_QUERIES) as [qs|];
      [|destruct (tc_args parsed_message !! SEARCH_QUERIES_DESCRIPTION) as [qs|]];
      cbn; try done.
    all: destruct (py_iter qs); cbn; [|done].
    all: apply for_each_recorded; [|done]; intros; by apply run_query_recorded. }
  match goal with |- context [match ?b s with _ => _ end] =>
    destruct (b s) as [[[]|e] s1] end; done.
Qed.

Lemma run_tool_call_returns (parsed_message : tool_call) (s : store Driver) :
  ∃ s1, run_tool_call parsed_message s = (Ok tt, s1).
Proof.
  unfold run_tool_call, try_except.
  match goal with |- context [match ?b s with _ => _ end] =>
    destruct (b s) as [[[]|e] s1] end; cbn; eauto.
Qed.

Lemma for_each_run_tool_call_returns (calls : list tool_call) (s : store Driver) :
  ∃ s1, for_each calls run_tool_call s = (Ok tt, s1).
Proof.
  revert s. induction calls as [|call calls IH]; intros s; [by eexists|].
  destruct (run_tool_call_returns call s) as [s1 Hs1].
  cbn. rewrite (bind_Ok _ _ _ _ _ Hs1). apply IH.
Qed.

Lemma tool_function_unfold (state : list message) (m : message) (s : store Driver) :
  last state = Some m →
  _tool_function state s =
    let s2 := after_calls (parser_invoke m) s in
    match (if (1 <? length (results s2))%nat
           then pick_content (results s2) None else Ok None) with
    | Raise e => (Raise e, s2)
    | Ok picked =>
        match last (parser_invoke m) with
        | None => (Raise UnboundLocalError, s2)
        | Some call => (Ok (ToolMessage (kept_content picked (results s2)) (tc_id call)), s2)
        end
    end.
Proof.
  intros Hm. unfold _tool_function, after_calls. rewrite Hm.
  destruct (for_each_run_tool_call_returns (parser_invoke m) (set_results [] s).2)
    as [s2 Hs2].
  rewrite (bind_Ok (lift (Ok m)) _ s m s eq_refl).
  rewrite (bind_Ok (set_results []) _ s tt (set_results [] s).2 eq_refl).
  rewrite (bind_Ok _ _ _ tt _ Hs2).
  rewrite (bind_Ok get _ s2 s2 s2 eq_refl).
  rewrite Hs2. cbn [snd].
  destruct (if (1 <? length (results s2))%nat then _ else _) as [picked|e] eqn:Hp.
  - rewrite (bind_Ok (lift (Ok picked)) _ s2 picked s2 eq_refl).
    destruct (last (parser_invoke m)) as [call|]; [|done].
    by rewrite (bind_Ok (lift (Ok call)) _ s2 call s2 eq_refl).
  - by rewrite (bind_Raise (lift (Raise e)) _ s2 e s2 eq_refl).
Qed.

Lemma pick_content_from (rs : list json) (c c' : option text) :
  pick_content rs c = Ok c' →
  c' = c ∨ ∃ res, res ∈ rs ∧ c' = Some (json_dumps res).
Proof.
  revert c. induction rs as [|r rs IH]; intros c; cbn.
  - intros [= ->]. by left.
  - destruct (result_nonempty r) as [b|]; cbn; [|done].
    intros Hp. apply IH in Hp as [->|(res & Hin & ->)].
    + destruct b; [right|by left]. exists r. split; [left|done].
    + right. exists res. split; [by right|done].
Qed.

Lemma after_calls_recorded (calls : list tool_call) (s : store Driver) :
  Forall recorded (results (after_calls calls s)).
Proof.
  unfold after_calls. apply for_each_recorded; [|by constructor].
  intros. by apply run_tool_call_recorded.
Qed.

Lemma run_query_failure (query : json) (s : store Driver) d e :
  neodriver s = Some d → Driver_query d query = Raise e →
  (run_query query s).1 = Raise IndexError ∧
  results (run_query query s).2 = results s.
Proof.
  intros Hd He.
  destruct (run_query_step query s) as (response & s1 & Hq & Hr & ->).
  rewrite (query_graph_database_failure query s d e Hd He) in Hq.
  by simplify_eq.
Qed.

Lemma tool_function_message (state : list message) (s s' : store Driver) (msg : message) :
  _tool_function state s = (Ok msg, s') →
  Forall recorded (results s') ∧
  ∃ content id,
    msg = ToolMessage content id ∧
    ((results s' = [] ∧ content = NotJson "") ∨
     (∃ res, res ∈ results s' ∧ content = json_dumps res)).
Proof.
  intros Hrun.
  destruct (last state) as [m|] eqn:Hm.
  2: { unfold _tool_function in Hrun. rewrite Hm in Hrun. done. }
  rewrite (tool_function_unfold state m s Hm) in Hrun. cbn zeta in Hrun.
  pose proof (after_calls_recorded (parser_invoke m) s) as Hrec.
  set (s2 := after_calls (parser_invoke m) s) in *.
  destruct (if (1 <? length (results s2))%nat then _ else _) as [picked|e] eqn:Hp;
    [|done].
  destruct (last (parser_invoke m)) as [call|]; [|done].
  injection Hrun as <- <-. split; [done|]. eexists _, _. split; [done|].
  assert (Hfrom : picked = None ∨ ∃ res, res ∈ results s2 ∧ picked = Some (json_dumps res)).
  { destruct (1 <? length (results s2))%nat; [|left; congruence].
    by apply pick_content_from in Hp. }
  destruct Hfrom as [->|(res & Hin & ->)]; cbn.
  - destruct (results s2) as [|r rs]; [by left|]. right. exists r. split; [left|done].
  - right. by exists res.
Qed.

Lemma tool_function_no_record (state : list message) (calls : list tool_call)
    (call : tool_call) (s : store Driver) :
  last state = Some (AIMessage calls) → last calls = Some call →
  results (_tool_function state s).2 = [] →
  (_tool_function state s).1 = Ok (ToolMessage (NotJson "") (tc_id call)).
Proof.
  intros Hm Hcall.
  rewrite (tool_function_unfold state _ s Hm). cbn zeta. cbn [parser_invoke].
  set (s2 := after_calls calls s). rewrite Hcall.
  destruct (results s2) as [|r rs] eqn:Hrs; [done|].
  destruct (if (1 <? length (r :: rs))%nat then _ else _); cbn; by rewrite Hrs.
Qed.

(** C10, as amended.  A query contributes the record of its text and of item
    0 of the sequence the driver returned for it, and nothing else of that
    sequence; when the sequence is empty (what [_query_graph_database] returns
    after a database error, which it catches) the [IndexError] leaves
    [results] as it was.  The tool message serializes one of the records, and
    its content is the empty string when there is none. *)
Theorem tool_function_results :
  (∀ (query : json) (s : store Driver),
     ∃ response s1,
       _query_graph_database query s = (Ok response, s1) ∧
       results s1 = results s ∧
       run_query query s =
         match response with
         | [] => (Raise IndexError, s1)
         | item :: _ => (Ok tt, with_result s1 (tool_result query item))
         end) ∧
  (∀ (query : json) (s : store Driver) d e,
     neodriver s = Some d → Driver_query d query = Raise e →
     (run_query query s).1 = Raise IndexError ∧
     results (run_query query s).2 = results s) ∧
  (∀ (state : list message) (s s' : store Driver) (msg : message),
     _tool_function state s = (Ok msg, s') →
     Forall recorded (results s') ∧
     ∃ content id,
       msg = ToolMessage content id ∧
       ((results s' = [] ∧ content = NotJson "") ∨
        (∃ res, res ∈ results s' ∧ content = json_dumps res))) ∧
  (∀ (state : list message) (calls : list tool_call) (call : tool_call) (s : store Driver),
     last state = Some (AIMessage calls) → last calls = Some call →
     results (_tool_function state s).2 = [] →
     (_tool_function state s).1 = Ok (ToolMessage (NotJson "") (tc_id call))).
Proof.
  split; [exact run_query_step|]. split; [exact run_query_failure|].
  split; [exact tool_function_message|exact tool_function_no_record].
Qed.

(** [_query_graph_database] never raises.  With [d] the driver of the agent
    once [_connect_db] has run: it returns the very response [d] gives to the
    query and changes nothing else, and when [d] raises it returns the empty
    list and logs the exception of [d], and nothing else changes. *)
Lemma query_graph_database_never_raises :
  (∀ (query : json) (s : store Driver),
     ∃ response s1, _query_graph_database query s = (Ok response, s1)) ∧
  (∀ (query : json) (s : store Driver) d response,
     neodriver (_connect_db s).2 = Some d → Driver_query d query = Ok response →
     _query_graph_database query s = (Ok response, (_connect_db s).2)) ∧
  (∀ (query : json) (s : store Driver) d e,
     neodriver (_connect_db s).2 = Some d → Driver_query d query = Raise e →
     _query_graph_database query s = (Ok [], with_logged (_connect_db s).2 e)) ∧
  (∀ (query : json) (s : store Driver) d e,
     neodriver s = Some d → Driver_query d query = Raise e →
     _query_graph_database query s =
       (Ok [], Store (connection_args s) (neodriver s) (logged s ++ [e]) (results s))).
Proof.
  split; [|split; [|split]].
  - intros query s. destruct (query_graph_database_returns query s) as (r & s1 & Hq & _).
    by exists r, s1.
  - intros query s d response Hd Hq.
    destruct (connect_db_returns s) as (s1 & Hc & _). rewrite Hc in Hd |- *. cbn [snd] in *.
    unfold _query_graph_database. rewrite (bind_Ok _ _ _ _ _ Hc).
    unfold_M. by rewrite Hd, Hq.
  - intros query s d e Hd Hq.
    destruct (connect_db_returns s) as (s1 & Hc & _). rewrite Hc in Hd |- *. cbn [snd] in *.
    unfold _query_graph_database. rewrite (bind_Ok _ _ _ _ _ Hc).
    unfold_M. by rewrite Hd, Hq.
  - exact query_graph_database_failure.
Qed.

(** The content picked among several records is that of the last one whose
    ["result"] is a non-empty list, whatever came before it. *)
Lemma pick_content_last (rs : list json) (query : json) (row : json) (rows : list json)
    (content : option text) :
  pick_content (rs ++ [tool_result query (JArr (row :: rows))]) content =
    (_ ← pick_content rs content;
     Ok (Some (json_dumps (tool_result query (JArr (row :: rows)))))).
Proof.
  revert content. induction rs as [|r rs IH]; intros content; [done|].
  cbn [app pick_content]. destruct (result_nonempty r); cbn; [apply IH|done].
Qed.

End ToolExecutor.

Lemma tool_function_results_witness :
  (@_tool_function unit unreachable_db
     [HumanMessage "Which genes?"; AIMessage [generate_query "call_1" [gene_query]]]
     sample_store).1 = Ok (ToolMessage (NotJson "") "call_1").
Proof.
  apply (proj2 (proj2 (proj2 (@tool_function_results unit unreachable_db)))
           [HumanMessage "Which genes?"; AIMessage [generate_query "call_1" [gene_query]]]
           [generate_query "call_1" [gene_query]]
           (generate_query "call_1" [gene_query])
           sample_store).
  - reflexivity.
  - reflexivity.
  - vm_compute. reflexivity.
Defined.

(** C10, as stated, fails: the item kept for a query is its whole list of
    rows, which the tool message serializes and [_get_last_tool_results_num]
    counts (two rows here), and a query answered with no row at all still
    contributes its pair. *)
Lemma tool_message_holds_every_row :
  let state := [HumanMessage "Which proteins?";
                AIMessage [generate_query "call_1" [protein_query; pathway_query]]] in
  let out := @_tool_function unit sample_db state sample_store in
  let kept := tool_result (JStr protein_query) protein_rows in
  results out.2 = [kept; tool_result (JStr pathway_query) (JArr [])] ∧
  out.1 = Ok (ToolMessage (json_dumps kept) "call_1") ∧
  (r ← py_getitem kept "result"; py_len r) = Ok 2%nat ∧
  _get_last_tool_results_num (state ++ [ToolMessage (json_dumps kept) "call_1"]) = Ok 2%nat.
Proof. vm_compute. repeat split; reflexivity. Qed.

(** C2.  Two search queries, both answered with rows that hold a value: both
    are run, the first result is non-empty by both tests of the agent, and the
    tool message serializes the second, because the loop that picks the
    content goes on after a non-empty result. *)
Theorem tool_function_keeps_last_nonempty :
  let state := [HumanMessage "Which genes?";
                AIMessage [generate_query "call_1" [gene_query; protein_query]]] in
  let out := @_tool_function unit sample_db state sample_store in
  results out.2 = [tool_result (JStr gene_query) gene_rows;
                   tool_result (JStr protein_query) protein_rows] ∧
  result_nonempty (tool_result (JStr gene_query) gene_rows) = Ok true ∧
  count_results (json_dumps (tool_result (JStr gene_query) gene_rows)) = Ok 1%nat ∧
  out.1 = Ok (ToolMessage (json_dumps (tool_result (JStr protein_query) protein_rows)) "call_1").
Proof. vm_compute. repeat split; reflexivity. Qed.

(** ** The decision *)

(** [_should_continue] answers [END_NODE] exactly when the base class does or
    the last tool result counts at least one row, and [EXECUTE_TOOL_NODE]
    exactly when the base class does and the count is 0. *)
Lemma should_continue_decision (super_should_continue : list message → node)
    (state : list message) :
  (_should_continue super_should_continue state = Ok END_NODE ↔
   super_should_continue state = END_NODE ∨
   ∃ n, _get_last_tool_results_num state = Ok (S n)) ∧
  (_should_continue super_should_continue state = Ok EXECUTE_TOOL_NODE ↔
   super_should_continue state = EXECUTE_TOOL_NODE ∧
   _get_last_tool_results_num state = Ok 0%nat).
Proof.
  unfold _should_continue.
  destruct (super_should_continue state); cbn.
  - split; split; try done; [by left|intros [? _]; done].
  - destruct (_get_last_tool_results_num state) as [[|n]|e]; cbn.
    + split; split; try done. intros [|[n Hn]]; done.
    + split; split; try done; [right; by exists n|intros [_ ?]; done].
    + split; split; try done; [intros [|[n Hn]]; done|intros [_ ?]; done].
Qed.

(** An exception of the count is an exception of the decision. *)
Lemma should_continue_raises (super_should_continue : list message → node)
    (state : list message) (e : exn) :
  super_should_continue state = EXECUTE_TOOL_NODE →
  _get_last_tool_results_num state = Raise e →
  _should_continue super_should_continue state = Raise e.
Proof. intros Hs He. unfold _should_continue. rewrite Hs. cbn. by rewrite He. Qed.

(** C3.  With steps left in the budget and a most recent tool message whose
    content is the empty string, [_should_continue] returns neither node: it
    raises the [JSONDecodeError] of [json.loads], before and after the
    revision of the proposal. *)
Theorem should_continue_raises_on_empty_content :
  let state := [HumanMessage "Which genes?";
                AIMessage [generate_query "call_1" [gene_query]];
                ToolMessage (NotJson "") "call_1"] in
  ReflexionAgent_should_continue default_max_steps state = EXECUTE_TOOL_NODE ∧
  _should_continue (ReflexionAgent_should_continue default_max_steps) state =
    Raise JSONDecodeError ∧
  _should_continue (fun _ => EXECUTE_TOOL_NODE)
    (state ++ [AIMessage [revise_query "call_2" gene_query]]) = Raise JSONDecodeError.
Proof. vm_compute. repeat split; reflexivity. Qed.

(** C4.  The database cannot be reached: the errors are logged, no record
    is kept and the tool message has the empty string as content; the next
    decision, whatever the revision, raises [JSONDecodeError] instead of going
    on to the tool node. *)
Theorem driver_error_ends_in_decode_error :
  let state := [HumanMessage "Which genes?";
                AIMessage [generate_query "call_1" [gene_query]]] in
  let out := @_tool_function unit unreachable_db state sample_store in
  out.1 = Ok (ToolMessage (NotJson "") "call_1") ∧
  logged out.2 = [Exception "ServiceUnavailable"; AttributeError; IndexError] ∧
  results out.2 = [] ∧
  ∀ revision : list tool_call,
    _should_continue (ReflexionAgent_should_continue default_max_steps)
      (state ++ [ToolMessage (NotJson "") "call_1"; AIMessage revision]) =
    Raise JSONDecodeError.
Proof. vm_compute. repeat split; reflexivity. Qed.

(** ** The reflexion loop *)


Lemma cycles_app (a b : list transition) :
  cycles (a ++ b) = (cycles a + cycles b)%nat.
Proof. unfold cycles. by rewrite List.filter_app, length_app. Qed.

Lemma cycles_Execute (tr : list transition) : cycles (tr ++ [Execute]) = cycles tr.
Proof. rewrite cycles_app. cbn. lia. Qed.

Lemma cycles_Revise (tr : list transition) : cycles (tr ++ [Revise]) = S (cycles tr).
Proof. rewrite cycles_app. cbn. lia. Qed.





Section Loop.

Context `{Neo4j Driver}.
Variable initial_responder : list message → list tool_call.
Variable revise_responder : list message → list tool_call.
Variable super_should_continue : list message → node.









End Loop.




(** The bound is reached: with no row that holds a value, a budget of three
    gives one generate and two revise cycles. *)
Example reflexion_loop_uses_budget :
  trace <$> @ReflexionAgent_execute unit sample_db disease_responder disease_reviser
              (ReflexionAgent_should_continue 3) 1 "Which diseases?" sample_store =
  Some [Generate; Execute; Revise; Execute; Revise].
Proof. vm_compute. reflexivity. Qed.

(** With a database that cannot be reached the first decision raises, and the
    run ends there with the exception as its answer. *)
Example unreachable_database_ends_run :
  (fun r => (trace r, answer r)) <$>
    @ReflexionAgent_execute unit unreachable_db gene_responder disease_reviser
      (ReflexionAgent_should_continue default_max_steps) 18 "Which genes?" sample_store =
  Some ([Generate; Execute; Revise], Raise JSONDecodeError).
Proof. vm_compute. reflexivity. Qed.



(** ** The schema index *)

Lemma py_eq_str_iff (x : json) (s : string) : py_eq_str x s = true ↔ x = JStr s.
Proof.
  destruct x; cbn; try (split; [done|congruence]).
  rewrite String.eqb_eq. split; congruence.
Qed.

Lemma name_indicates_relationship_iff (key : string) :
  name_indicates_relationship key = true ↔ relationship_name key.
Proof. unfold name_indicates_relationship, relationship_name. apply orb_true_iff. Qed.

Lemma py_eq_str_false (x : json) (s : string) : py_eq_str x s = false ↔ x ≠ JStr s.
Proof. rewrite <- py_eq_str_iff. destruct (py_eq_str x s); split; congruence. Qed.

Section SchemaIndex.

Variable sentencecase_to_pascalcase : string → string.

Lemma index_entry_entities idx key value name :
  is_Some ((index_entry sentencecase_to_pascalcase idx (key, value)).1 !! name) ↔
  is_Some (idx.1 !! name) ∨
  (sentencecase_to_pascalcase key = name ∧ entity_entry key value).
Proof.
  unfold index_entry, entity_entry, represented_as.
  rewrite <- name_indicates_relationship_iff.
  destruct (value !! "represented_as") as [r|]; [|intuition congruence].
  destruct (py_eq_str r "node") eqn:Hnode;
    [apply py_eq_str_iff in Hnode as ->|apply py_eq_str_false in Hnode].
  - destruct (name_indicates_relationship key); cbn [andb negb fst snd py_eq_str String.eqb].
    + intuition congruence.
    + rewrite lookup_insert_is_Some.
      destruct (decide (sentencecase_to_pascalcase key = name)); intuition congruence.
  - cbn [andb]. destruct (py_eq_str r "edge"); cbn [fst snd]; intuition congruence.
Qed.

Lemma index_entry_relationships idx key value name :
  is_Some ((index_entry sentencecase_to_pascalcase idx (key, value)).2 !! name) ↔
  is_Some (idx.2 !! name) ∨
  (sentencecase_to_pascalcase key = name ∧ relationship_entry key value).
Proof.
  unfold index_entry, relationship_entry, represented_as.
  rewrite <- name_indicates_relationship_iff.
  destruct (value !! "represented_as") as [r|]; [|intuition congruence].
  destruct (py_eq_str r "node") eqn:Hnode;
    [apply py_eq_str_iff in Hnode as ->|apply py_eq_str_false in Hnode].
  - destruct (name_indicates_relationship key); cbn [andb negb fst snd].
    + rewrite lookup_insert_is_Some.
      destruct (decide (sentencecase_to_pascalcase key = name)); intuition congruence.
    + cbn. intuition congruence.
  - cbn [andb].
    destruct (py_eq_str r "edge") eqn:Hedge;
      [apply py_eq_str_iff in Hedge as ->|apply py_eq_str_false in Hedge]; cbn [fst snd].
    + rewrite lookup_insert_is_Some.
      destruct (decide (sentencecase_to_pascalcase key = name)); intuition congruence.
    + intuition congruence.
Qed.

Lemma foldl_index_entry schema idx name :
  let idx' := foldl (index_entry sentencecase_to_pascalcase) idx schema in
  (is_Some (idx'.1 !! name) ↔
   is_Some (idx.1 !! name) ∨
   ∃ key value, (key, value) ∈ schema ∧
     sentencecase_to_pascalcase key = name ∧ entity_entry key value) ∧
  (is_Some (idx'.2 !! name) ↔
   is_Some (idx.2 !! name) ∨
   ∃ key value, (key, value) ∈ schema ∧
     sentencecase_to_pascalcase key = name ∧ relationship_entry key value).
Proof.
  revert idx. induction schema as [|[key value] schema IH]; intros idx; cbn zeta.
  - cbn. split; (split; [by left|]); intros [|(? & ? & Hin & _)]; try done;
      by apply elem_of_nil in Hin.
  - cbn [foldl]. destruct (IH (index_entry sentencecase_to_pascalcase idx (key, value)))
      as [He Hr].
    rewrite He, Hr, index_entry_entities, index_entry_relationships.
    split; split.
    + intros [[|[]]|(k & v & Hin & ?)]; [by left|right..].
      * exists key, value. split; [left|done].
      * exists k, v. split; [by right|done].
    + intros [|(k & v & Hin & Hk & Hv)]; [by left; left|].
      apply elem_of_cons in Hin as [[= -> ->]|Hin]; [by left; right|].
      right. by exists k, v.
    + intros [[|[]]|(k & v & Hin & ?)]; [by left|right..].
      * exists key, value. split; [left|done].
      * exists k, v. split; [by right|done].
    + intros [|(k & v & Hin & Hk & Hv)]; [by left; left|].
      apply elem_of_cons in Hin as [[= -> ->]|Hin]; [by left; right|].
      right. by exists k, v.
Qed.

Lemma index_entry_classifies idx key value :
  (entity_entry key value →
   index_entry sentencecase_to_pascalcase idx (key, value) =
     (<[sentencecase_to_pascalcase key := value]> idx.1, idx.2)) ∧
  (relationship_entry key value →
   index_entry sentencecase_to_pascalcase idx (key, value) =
     (idx.1, <[sentencecase_to_pascalcase key := value]> idx.2)) ∧
  (value !! "represented_as" = None →
   index_entry sentencecase_to_pascalcase idx (key, value) = idx).
Proof.
  unfold index_entry, entity_entry, relationship_entry, represented_as.
  rewrite <- name_indicates_relationship_iff.
  split; [|split].
  - intros [-> Hname]. cbn.
    by destruct (name_indicates_relationship key).
  - intros [->|[-> ->]]; [|done]. cbn.
    by destruct (name_indicates_relationship key).
  - by intros ->.
Qed.

(** C9.  An entry represented as a node whose lowercased name contains
    neither "interaction" nor "association" is put into [entities]; an entry
    represented as an edge, or as a node with such a name, into
    [relationships]; one without ["represented_as"] changes neither mapping.
    So a name is a key of [entities] exactly when it is the Pascal-case name
    of an entry of the first kind, and a key of [relationships] exactly when
    it is that of an entry of the second kind. *)
Theorem schema_index_classification (schema_config : list (string * gmap string json)) :
  let self := BioCypherPrompt__init__ sentencecase_to_pascalcase schema_config in
  (∀ idx key value,
     (entity_entry key value →
      index_entry sentencecase_to_pascalcase idx (key, value) =
        (<[sentencecase_to_pascalcase key := value]> idx.1, idx.2)) ∧
     (relationship_entry key value →
      index_entry sentencecase_to_pascalcase idx (key, value) =
        (idx.1, <[sentencecase_to_pascalcase key := value]> idx.2)) ∧
     (value !! "represented_as" = None →
      index_entry sentencecase_to_pascalcase idx (key, value) = idx)) ∧
  (∀ name, is_Some (entities self !! name) ↔
     ∃ key value, (key, value) ∈ schema_config ∧
       sentencecase_to_pascalcase key = name ∧ entity_entry key value) ∧
  (∀ name, is_Some (relationships self !! name) ↔
     ∃ key value, (key, value) ∈ schema_config ∧
       sentencecase_to_pascalcase key = name ∧ relationship_entry key value).
Proof.
  cbn zeta. split; [exact index_entry_classifies|].
  unfold BioCypherPrompt__init__. cbn [entities relationships].
  split; intros name;
    destruct (foldl_index_entry schema_config (∅, ∅) name) as [He Hr]; cbn zeta in *.
  - rewrite He. cbn [fst]. rewrite lookup_empty. split; [intros [[]%is_Some_None|]|]; eauto.
  - rewrite Hr. cbn [snd]. rewrite lookup_empty. split; [intros [[]%is_Some_None|]|]; eauto.
Qed.

End SchemaIndex.

Lemma schema_index_classification_witness :
  is_Some (entities sample_prompt !! "Protein") ∧
  is_Some (relationships sample_prompt !! "GeneDiseaseAssociation") ∧
  is_Some (relationships sample_prompt !! "Binds") ∧
  entities sample_prompt !! "Comment" = None ∧
  relationships sample_prompt !! "Comment" = None.
Proof.
  destruct (schema_index_classification (fun name => name) sample_schema) as (_ & He & Hr).
  split; [|split; [|split]].
  - apply He. exists "Protein", {[ "represented_as" := JStr "node" ]}.
    split; [by left|]. split; [done|]. split; [reflexivity|].
    intros [|]; discriminate.
  - apply Hr. exists "GeneDiseaseAssociation", {[ "represented_as" := JStr "node" ]}.
    split; [by right; left|]. split; [done|]. right. split; [reflexivity|].
    right. reflexivity.
  - apply Hr. eexists "Binds", _.
    split; [by right; right; left|]. split; [done|]. left. reflexivity.
  - split; vm_compute; reflexivity.
Defined.

(** ** Selecting entities and properties *)

Section Selection.

Variable entity_selector :
  gmap string (gmap string json) → gmap string (gmap string json) → string → result string.
Variable property_selector :
  gmap string (list string) → gmap string (list string) → string → result text.

Context {key_order : KeyOrder}.

Lemma select_name_schema (self : BioCypherPrompt) (name : string) :
  entities (select_name self name) = entities self ∧
  relationships (select_name self name) = relationships self.
Proof.
  unfold select_name.
  destruct (entities self !! name); [done|]. by destruct (relationships self !! name).
Qed.

Lemma foldl_select_name (names : list string) (self : BioCypherPrompt) :
  let self' := foldl select_name self names in
  entities self' = entities self ∧
  relationships self' = relationships self ∧
  selected_entities self' = selected_entities self ++ added_entities self names ∧
  selected_relationships self' =
    selected_relationships self ++ added_relationships self names.
Proof.
  revert self. induction names as [|name names IH]; intros self; cbn zeta.
  - cbn. by rewrite !app_nil_r.
  - cbn [foldl]. destruct (IH (select_name self name)) as (He & Hr & Hse & Hsr).
    destruct (select_name_schema self name) as [He1 Hr1].
    rewrite He, Hr, Hse, Hsr, He1, Hr1.
    split; [done|]. split; [done|].
    unfold added_entities, added_relationships. rewrite !filter_cons, He1, Hr1.
    unfold select_name.
    destruct (entities self !! name) as [e|] eqn:Hen; cbn [selected_entities selected_relationships].
    + rewrite decide_True by eauto.
      rewrite decide_False by (intros [? _]; done).
      by rewrite <- app_assoc.
    + rewrite decide_False by (by intros []).
      destruct (relationships self !! name) as [r|] eqn:Hrn;
        cbn [selected_entities selected_relationships].
      * rewrite decide_True by eauto. by rewrite <- app_assoc.
      * rewrite decide_False by (intros [_ []]; done). done.
Qed.

(** C7.  [select_entities] appends to [selected_entities] the names of the
    reply that are keys of [entities], and to [selected_relationships] those
    that are keys of [relationships] and not of [entities]; a name that is a
    key of neither mapping is added to neither list. *)
Theorem select_entities_known_names (self : BioCypherPrompt) (question : string)
    (msg : string) :
  entity_selector (entities self) (relationships self) question = Ok msg →
  let self' := (select_entities entity_selector question self).2 in
  (selected_entities self' =
     selected_entities self ++ added_entities self (reply_names msg)) ∧
  (selected_relationships self' =
     selected_relationships self ++ added_relationships self (reply_names msg)) ∧
  ∀ name, entities self !! name = None → relationships self !! name = None →
    (name ∉ added_entities self (reply_names msg)) ∧
    (name ∉ added_relationships self (reply_names msg)).
Proof.
  intros Hmsg. cbn zeta.
  unfold select_entities, set_question.
  unfold mbind, M_bind, modify, get, lift, mret, M_ret.
  cbn [entities relationships]. rewrite Hmsg.
  fold (reply_names msg). cbn [snd].
  match goal with |- context [foldl select_name ?s _] =>
    destruct (foldl_select_name (reply_names msg) s) as (_ & _ & Hse & Hsr) end.
  cbn zeta in Hse, Hsr. cbn [selected_entities selected_relationships] in Hse, Hsr.
  split; [exact Hse|]. split; [exact Hsr|].
  intros name He Hr. unfold added_entities, added_relationships.
  rewrite !list_elem_of_filter, He, Hr. split; intros [H _].
  - by apply is_Some_None in H.
  - destruct H as [_ H]. by apply is_Some_None in H.
Qed.

Lemma or_str_unset (x : option string) (y : string) : unset_str x → or_str x y = y.
Proof. by intros [->| ->]. Qed.

Lemma or_list_unset (x : option (list string)) (y : list string) :
  unset_list x → or_list x y = y.
Proof. by intros [->| ->]. Qed.

(** C8.  [select_properties] raises [ValueError] when no question is passed
    and none is stored, and, a question being there, when no entities and no
    relationships are passed and none are selected. *)
Theorem select_properties_requires_inputs (self : BioCypherPrompt)
    (question_ : option string) (entities_ relationships_ : option (list string)) :
  (unset_str question_ → question self = "" →
   select_properties property_selector question_ entities_ relationships_ self =
     (Raise (ValueError NO_QUESTION), self)) ∧
  (or_str question_ (question self) ≠ "" →
   unset_list entities_ → selected_entities self = [] →
   unset_list relationships_ → selected_relationships self = [] →
   select_properties property_selector question_ entities_ relationships_ self =
     (Raise (ValueError NO_ENTITIES), self)).
Proof.
  unfold select_properties, mbind, M_bind, get, lift. split.
  - intros Hq Hself. by rewrite (or_str_unset _ _ Hq), Hself.
  - intros Hq He Hse Hr Hsr.
    rewrite (proj2 (String.eqb_neq _ _) Hq).
    by rewrite (or_list_unset _ _ He), (or_list_unset _ _ Hr), Hse, Hsr.
Qed.

End Selection.

Lemma select_entities_known_names_witness :
  let self' := (select_entities sample_entity_selector "What binds?" sample_prompt).2 in
  selected_entities self' = ["Protein"] ∧
  selected_relationships self' = ["Binds"] ∧
  ("Pathway" ∉ selected_entities self') ∧
  ("Pathway" ∉ selected_relationships self').
Proof.
  destruct (select_entities_known_names sample_entity_selector sample_prompt
              "What binds?" "Protein,Binds,Pathway" eq_refl) as (He & Hr & Hout).
  destruct (Hout "Pathway") as [Hne Hnr]; [vm_compute; reflexivity..|].
  cbn zeta in *. rewrite He, Hr. split; [|split; [|split]].
  - vm_compute. reflexivity.
  - vm_compute. reflexivity.
  - exact Hne.
  - exact Hnr.
Defined.

Lemma select_properties_requires_inputs_witness :
  (select_properties sample_property_selector None None None sample_prompt).1 =
    Raise (ValueError NO_QUESTION) ∧
  (select_properties sample_property_selector (Some "What binds?") None (Some [])
     sample_prompt).1 = Raise (ValueError NO_ENTITIES).
Proof.
  split.
  - rewrite (proj1 (select_properties_requires_inputs sample_property_selector
                      sample_prompt None None None)); [done|by left|done].
  - rewrite (proj2 (select_properties_requires_inputs sample_property_selector
                      sample_prompt (Some "What binds?") None (Some [])));
      [done|done|by left|done|by right|done].
Defined.

(** * Further properties *)

(** ** The connection to the database *)

Section Connection.

Context `{Neo4j Driver}.

(** The connection is made once: a connected agent is left as it is, without
    a call of the constructor; a first connection stores the driver; a
    failure of the constructor, or a missing host or port, is logged and the
    agent stays unconnected. *)
Theorem connect_db_cases (s : store Driver) :
  (∀ d, neodriver s = Some d → _connect_db s = (Ok tt, s)) ∧
  (∀ host port d,
     neodriver s = None →
     connection_args s !! "host" = Some host →
     connection_args s !! "port" = Some port →
     nu_Driver (or_neo4j (connection_args s !! "db_name")) (bolt_uri host port) = Ok d →
     _connect_db s = (Ok tt, with_neodriver s d)) ∧
  (∀ host port e,
     neodriver s = None →
     connection_args s !! "host" = Some host →
     connection_args s !! "port" = Some port →
     nu_Driver (or_neo4j (connection_args s !! "db_name")) (bolt_uri host port) = Raise e →
     _connect_db s = (Ok tt, with_logged s e)) ∧
  (neodriver s = None →
   connection_args s !! "host" = None ∨ connection_args s !! "port" = None →
   _connect_db s = (Ok tt, with_logged s TypeError)).
Proof.
  unfold _connect_db, bolt_uri. unfold_M.
  split; [|split; [|split]].
  - intros d Hd. by rewrite Hd.
  - intros host port d Hn Hh Hp Hd. rewrite Hn, Hh, Hp. cbn -[String.append]. by rewrite Hd.
  - intros host port e Hn Hh Hp He. rewrite Hn, Hh, Hp. cbn -[String.append]. by rewrite He.
  - intros Hn [Hh|Hp]; rewrite Hn.
    + by rewrite Hh.
    + rewrite Hp. by destruct (connection_args s !! "host").
Qed.

(** With a database whose constructor raises, every query tries to connect
    again: it logs the exception of the constructor and the [AttributeError]
    of [None.query], answers the empty list and leaves the agent
    unconnected. *)
Theorem query_graph_database_unconnected (query : json) (s : store Driver)
    (host port : string) (e : exn) :
  neodriver s = None →
  connection_args s !! "host" = Some host →
  connection_args s !! "port" = Some port →
  nu_Driver (or_neo4j (connection_args s !! "db_name")) (bolt_uri host port) = Raise e →
  _query_graph_database query s =
    (Ok [], with_logged (with_logged s e) AttributeError).
Proof.
  intros Hn Hh Hp He.
  unfold _query_graph_database, _connect_db, bolt_uri in *. unfold_M.
  rewrite Hn, Hh, Hp. cbn -[String.append]. rewrite He. cbn. rewrite Hn. unfold with_logged. cbn. by rewrite Hn.
Qed.

Lemma keeps_refl (s : store Driver) : keeps s s.
Proof. split_and!; [done..|by right]. Qed.

Lemma keeps_trans (s s1 s2 : store Driver) : keeps s s1 → keeps s1 s2 → keeps s s2.
Proof.
  intros (Hc & Hl & Hd) (Hc1 & Hl1 & Hd1). split_and!.
  - congruence.
  - by etrans.
  - destruct Hd as [|Hd]; [by left|]. destruct Hd1 as [Hd1|Hd1]; [|right; congruence].
    destruct (neodriver s); [congruence|by left].
Qed.

Lemma keeps_logger_error (e : exn) (s : store Driver) : keeps s (logger_error e s).2.
Proof. split_and!; [done|by apply prefix_app_r|by right]. Qed.

Lemma keeps_results (s : store Driver) (rs : list json) :
  keeps s (Store (connection_args s) (neodriver s) (logged s) rs).
Proof. split_and!; [done..|by right]. Qed.

Lemma query_graph_database_keeps (query : json) (s : store Driver) :
  keeps s (_query_graph_database query s).2.
Proof.
  unfold keeps, _query_graph_database, _connect_db. unfold_M.
  destruct (neodriver s) as [d|] eqn:Hd; cbn.
  - rewrite Hd. destruct (Driver_query d query); cbn; split_and!; try done;
      try (by right). by apply prefix_app_r.
  - destruct (py_add _ _); cbn;
      [destruct (py_add _ _); cbn; [destruct (nu_Driver _ _) as [d|]; cbn;
         [destruct (Driver_query d query); cbn|]|]|].
    all: rewrite ?Hd; cbn.
    all: split_and!; try done; try (by left).
    all: try (by apply prefix_app_r).
    all: rewrite <- app_assoc; by apply prefix_app_r.
Qed.

Lemma run_query_keeps (query : json) (s : store Driver) : keeps s (run_query query s).2.
Proof.
  pose proof (query_graph_database_keeps query s) as Hk.
  destruct (run_query_step query s) as (response & s1 & Hdb & _ & ->).
  rewrite Hdb in Hk. cbn [snd] in Hk.
  destruct response; cbn [snd]; [done|].
  eapply keeps_trans; [exact Hk|]. apply keeps_results.
Qed.

Lemma for_each_keeps {A} (body : A → M (store Driver) unit) (l : list A) (s : store Driver) :
  (∀ x s, keeps s (body x s).2) → keeps s (for_each l body s).2.
Proof.
  intros Hbody. revert s. induction l as [|x l IH]; intros s; [apply keeps_refl|].
  cbn. unfold mbind, M_bind. specialize (Hbody x s).
  destruct (body x s) as [[[]|e] s1]; cbn [snd] in *; [|done].
  eapply keeps_trans; [exact Hbody|apply IH].
Qed.

Lemma run_tool_call_keeps (parsed_message : tool_call) (s : store Driver) :
  keeps s (run_tool_call parsed_message s).2.
Proof.
  unfold run_tool_call, try_except.
  match goal with |- context [match ?b s with _ => _ end] =>
    assert (Hb : keeps s (b s).2) end.
  { destruct (is_None _); [|by apply run_query_keeps].
    unfold mbind, M_bind, lift, py_getitem.
    destruct (tc_args parsed_message !! SEARCH_QUERIES) as [qs|];
      [|destruct (tc_args parsed_message !! SEARCH_QUERIES_DESCRIPTION) as [qs|]];
      cbn; try apply keeps_refl.
    all: destruct (py_iter qs); cbn; [|apply keeps_refl].
    all: apply for_each_keeps; intros; apply run_query_keeps. }
  match goal with |- context [match ?b s with _ => _ end] =>
    destruct (b s) as [[[]|e] s1] end; cbn [snd] in *; [done|].
  eapply keeps_trans; [exact Hb|apply keeps_logger_error].
Qed.

(** A tool step keeps the agent's connection: whatever the proposal and
    whatever the database does, the connection arguments are the same
    afterwards, nothing is removed from the log, and a connected driver is
    still the same driver. *)
Theorem tool_function_keeps (state : list message) (s : store Driver) :
  keeps s (_tool_function state s).2.
Proof.
  destruct (last state) as [m|] eqn:Hm.
  - rewrite (tool_function_unfold state m s Hm). cbn zeta.
    assert (Hk : keeps s (after_calls (parser_invoke m) s)).
    { unfold after_calls. eapply keeps_trans; [apply (keeps_results s [])|].
      apply for_each_keeps. apply run_tool_call_keeps. }
    destruct (if (1 <? _)%nat then _ else _); [|done].
    by destruct (last (parser_invoke m)).
  - unfold _tool_function. rewrite Hm. apply keeps_refl.
Qed.

End Connection.

(** ** Tool calls and the tool message *)

Lemma for_each_app {S A} (body : A → M S unit) (l1 l2 : list A) (s : S) :
  for_each (l1 ++ l2) body s =
    match for_each l1 body s with
    | (Ok _, s1) => for_each l2 body s1
    | (Raise e, s1) => (Raise e, s1)
    end.
Proof.
  revert s. induction l1 as [|x l1 IH]; intros s; [done|].
  cbn. unfold mbind, M_bind. destruct (body x s) as [[[]|e] s1]; [apply IH|done].
Qed.

Lemma result_nonempty_rows (r : json) :
  rows_record r → result_nonempty r = Ok (has_rows r).
Proof. intros (q & rows & ->). by destruct rows. Qed.

Lemma pick_content_rows (rs : list json) (content : option text) :
  Forall rows_record rs →
  pick_content rs content =
    Ok (match last (List.filter has_rows rs) with
        | Some r => Some (json_dumps r)
        | None => content
        end).
Proof.
  intros Hrs. revert content. induction Hrs as [|r rs Hr _ IH]; intros content; [done|].
  cbn [pick_content List.filter]. rewrite (result_nonempty_rows r Hr). cbn.
  rewrite IH. destruct (has_rows r); [|done].
  destruct (List.filter has_rows rs) as [|r' l] eqn:Hf; [done|].
  change (last (r :: r' :: l)) with (last (r' :: l)).
  by destruct (last (r' :: l)) eqn:Hl; [|apply last_None in Hl].
Qed.

Lemma kept_content_rows (rs : list json) :
  Forall rows_record rs →
  ∃ picked,
    (if (1 <? length rs)%nat then pick_content rs None else Ok None) = Ok picked ∧
    kept_content picked rs = content_of (kept_record rs).
Proof.
  intros Hrs. unfold kept_record.
  destruct rs as [|r [|r' rs]].
  - by exists None.
  - exists None. split; [done|]. cbn. by destruct (has_rows r).
  - eexists. split; [by apply pick_content_rows|].
    by destruct (last (List.filter has_rows (r :: r' :: rs))).
Qed.

Section ToolCalls.

Context `{Neo4j Driver}.

Lemma run_tool_call_revised_query (id : string) (args : gmap string json) (s : store Driver) :
  revised_query args ≠ JNull →
  run_tool_call (ToolCall id args) s =
    try_except (run_query (revised_query args)) logger_error s.
Proof.
  intros Hq. unfold run_tool_call. cbn [tc_args].
  by destruct (revised_query args).
Qed.

(** When the proposal carries a revised query, that query alone is run: the
    search queries and the rest of the arguments do not matter, and [results]
    gains the record of the revised query, or nothing (and the [IndexError] is
    logged) when its response is empty. *)
Theorem run_tool_call_revised (id : string) (args : gmap string json) (s : store Driver) :
  revised_query args ≠ JNull →
  (∀ id' args', revised_query args' = revised_query args →
     run_tool_call (ToolCall id' args') s = run_tool_call (ToolCall id args) s) ∧
  ∃ response s1,
    _query_graph_database (revised_query args) s = (Ok response, s1) ∧
    run_tool_call (ToolCall id args) s =
      match response with
      | [] => (Ok tt, with_logged s1 IndexError)
      | item :: _ => (Ok tt, with_result s1 (tool_result (revised_query args) item))
      end.
Proof.
  intros Hq. split.
  - intros id' args' Heq. rewrite !run_tool_call_revised_query by congruence.
    by rewrite Heq.
  - destruct (run_query_step (revised_query args) s) as (response & s1 & Hdb & _ & Hrun).
    exists response, s1. split; [done|].
    rewrite run_tool_call_revised_query by done.
    unfold try_except. rewrite Hrun. by destruct response.
Qed.

(** A search query whose response is empty ends the tool call: its
    [IndexError] is logged and the queries after it are not run. *)
Theorem search_queries_stop_at_failure (id : string) (args : gmap string json)
    (before after : list json) (query : json) (s s1 s2 : store Driver) :
  revised_query args = JNull →
  args !! SEARCH_QUERIES = Some (JArr (before ++ query :: after)) →
  for_each before run_query s = (Ok tt, s1) →
  _query_graph_database query s1 = (Ok [], s2) →
  run_tool_call (ToolCall id args) s = (Ok tt, with_logged s2 IndexError).
Proof.
  intros Hq Hargs Hbefore Hdb.
  unfold run_tool_call, try_except. cbn [tc_args]. rewrite Hq, Hargs. cbn [is_None].
  rewrite (bind_Ok (lift (Ok (JArr (before ++ query :: after)))) _ s _ s eq_refl).
  rewrite (bind_Ok (lift (py_iter (JArr (before ++ query :: after)))) _ s _ s eq_refl).
  rewrite for_each_app, Hbefore. cbn [for_each].
  destruct (run_query_step query s1) as (response & s1' & Hdb' & _ & Hrun).
  rewrite Hdb in Hdb'. injection Hdb' as <- <-.
  by rewrite (bind_Raise _ _ _ _ _ Hrun).
Qed.

(** Without a message, or without a tool call in the last message, there is
    no tool message: [state[-1]] raises [IndexError], and the [tool_call_id]
    of a loop that never ran raises [UnboundLocalError]. *)
Theorem tool_function_without_tool_call (s : store Driver) :
  _tool_function [] s = (Raise IndexError, s) ∧
  ∀ state m, last state = Some m → parser_invoke m = [] →
    _tool_function state s =
      (Raise UnboundLocalError, Store (connection_args s) (neodriver s) (logged s) []).
Proof.
  split; [done|].
  intros state m Hm Hcalls. rewrite (tool_function_unfold state m s Hm), Hcalls. done.
Qed.

Lemma tool_function_kept (state : list message) (calls : list tool_call)
    (call : tool_call) (s : store Driver) :
  last state = Some (AIMessage calls) → last calls = Some call →
  Forall rows_record (results (after_calls calls s)) →
  _tool_function state s =
    (Ok (ToolMessage (content_of (kept_record (results (after_calls calls s)))) (tc_id call)),
     after_calls calls s).
Proof.
  intros Hm Hcall Hrows.
  rewrite (tool_function_unfold state _ s Hm). cbn zeta. cbn [parser_invoke].
  destruct (kept_content_rows _ Hrows) as (picked & -> & ->). by rewrite Hcall.
Qed.

(** The tool message for a proposal with at least one tool call, when the
    records hold lists of rows: it answers the last tool call and serializes
    the last record that has rows, the first record when none has rows, and
    is empty only without any record. *)
Theorem tool_function_message_kept (state : list message) (calls : list tool_call)
    (call : tool_call) (s : store Driver) :
  last state = Some (AIMessage calls) → last calls = Some call →
  Forall rows_record (results (after_calls calls s)) →
  _tool_function state s =
    (Ok (ToolMessage (content_of (kept_record (results (after_calls calls s)))) (tc_id call)),
     after_calls calls s).
Proof. apply tool_function_kept. Qed.

Lemma query_response_from_driver (query : json) (s s1 : store Driver) response :
  _query_graph_database query s = (Ok response, s1) →
  response = [] ∨ ∃ d, Driver_query d query = Ok response.
Proof.
  destruct (connect_db_returns s) as (s0 & Hc & _).
  unfold _query_graph_database. rewrite (bind_Ok _ _ _ _ _ Hc). unfold_M.
  destruct (neodriver s0) as [d|]; [destruct (Driver_query d query) eqn:Hd|]; cbn;
    intros [= <- <-]; eauto.
Qed.

Lemma recorded_rows (r : json) : rows_driver → recorded r → rows_record r.
Proof.
  intros Hdriver (query & item & rest & s & s1 & -> & Hdb).
  apply query_response_from_driver in Hdb as [|[d Hd]]; [done|].
  destruct (Hdriver d query item rest Hd) as [rows ->]. by exists query, rows.
Qed.

Lemma after_calls_rows (calls : list tool_call) (s : store Driver) :
  rows_driver → Forall rows_record (results (after_calls calls s)).
Proof.
  intros Hdriver. eapply Forall_impl; [apply after_calls_recorded|].
  intros r. by apply recorded_rows.
Qed.

Lemma kept_record_rows (rs : list json) (r : json) :
  Forall rows_record rs → kept_record rs = Some r → rows_record r.
Proof.
  intros Hrs. unfold kept_record.
  destruct (last (List.filter has_rows rs)) as [r'|] eqn:Hl.
  - intros [= <-]. apply last_Some_elem_of in Hl.
    apply list_elem_of_In, List.filter_In in Hl as [Hin _].
    apply list_elem_of_In in Hin. by apply (proj1 (Forall_forall _ _) Hrs).
  - destruct rs as [|r0 rs']; [done|]. intros [= <-]. by apply Forall_inv in Hrs.
Qed.

(** The count that follows a tool step, for a driver that answers with lists
    of rows: the tool message is there, and counting its results raises
    [JSONDecodeError] when no record was kept, and otherwise gives the number
    of rows of the kept record, or 0 when none of its rows holds a value. *)
Theorem tool_step_count (state : list message) (calls : list tool_call)
    (call : tool_call) (s : store Driver) :
  rows_driver →
  last state = Some (AIMessage calls) → last calls = Some call →
  ∃ msg,
    (_tool_function state s).1 = Ok msg ∧
    (kept_record (results (_tool_function state s).2) = None ↔
     results (_tool_function state s).2 = []) ∧
    match kept_record (results (_tool_function state s).2) with
    | None => _get_last_tool_results_num (state ++ [msg]) = Raise JSONDecodeError
    | Some r =>
        ∃ query (rows : list (gmap string json)),
          r = tool_result query (JArr (JObj <$> rows)) ∧
          _get_last_tool_results_num (state ++ [msg]) =
            Ok (if forallb row_blank rows then 0 else length rows)%nat
    end.
Proof.
  intros Hdriver Hm Hcall.
  pose proof (after_calls_rows calls s Hdriver) as Hrows.
  rewrite (tool_function_kept state calls call s Hm Hcall Hrows). cbn [fst snd].
  set (rs := results (after_calls calls s)) in *.
  eexists. split; [done|]. split.
  - unfold kept_record. destruct rs as [|r rs']; [done|].
    by destruct (last (List.filter has_rows (r :: rs'))).
  - unfold _get_last_tool_results_num. rewrite rev_app_distr. cbn [rev app last_tool_results_num].
    destruct (kept_record rs) as [r|] eqn:Hk; [|done].
    destruct (kept_record_rows rs r Hrows Hk) as (query & rows & ->).
    exists query, rows. split; [done|]. cbn [content_of].
    by apply count_results_rows.
Qed.

End ToolCalls.

(** Only the most recent tool message is counted: the messages before it do
    not matter, nor do the other messages after it; a state without a tool
    message counts 0. *)
Theorem get_last_tool_results_num_last (before after : list message)
    (content : text) (id : string) :
  Forall (fun m => is_ToolMessage m = false) after →
  _get_last_tool_results_num (before ++ ToolMessage content id :: after) =
    count_results content ∧
  _get_last_tool_results_num after = Ok 0%nat.
Proof.
  intros Hafter. unfold _get_last_tool_results_num. split.
  - rewrite rev_app_distr. cbn [rev]. rewrite <- app_assoc.
    by rewrite last_tool_results_num_app by (by apply Forall_rev).
  - rewrite <- (app_nil_r (rev after)).
    by rewrite last_tool_results_num_app by (by apply Forall_rev).
Qed.

Lemma scan_rows_blank_app (blanks : list (gmap string json)) (rest : list json) :
  forallb row_blank blanks = true →
  scan_rows ((JObj <$> blanks) ++ rest) = scan_rows rest.
Proof.
  induction blanks as [|row blanks IH]; [done|].
  cbn [forallb]. intros [Hrow Hblanks]%andb_true_iff.
  cbn [fmap list_fmap app scan_rows py_keys]. cbn [mbind result_bind].
  rewrite scan_keys_row, Hrow. cbn. by apply IH.
Qed.

(** The rows are read up to the first one that holds a value: what follows
    it is counted without being looked at, whatever it is.  A record without
    ["result"] raises [KeyError], and a row that is no [dict], met before any
    value, raises [AttributeError]. *)
Theorem count_results_reads_lazily (res : gmap string json)
    (blanks : list (gmap string json)) (rest : list json) :
  forallb row_blank blanks = true →
  (∀ row, row_blank row = false →
     res !! "result" = Some (JArr ((JObj <$> blanks) ++ JObj row :: rest)) →
     count_results (json_dumps (JObj res)) = Ok (length blanks + 1 + length rest)%nat) ∧
  (∀ row, py_keys row = Raise AttributeError →
     res !! "result" = Some (JArr ((JObj <$> blanks) ++ row :: rest)) →
     count_results (json_dumps (JObj res)) = Raise AttributeError) ∧
  (res !! "result" = None →
   count_results (json_dumps (JObj res)) = Raise (KeyError "result")).
Proof.
  intros Hblanks. unfold count_results. cbn [json_dumps json_loads mbind result_bind py_getitem].
  split; [|split].
  - intros row Hrow ->. cbn [py_len mbind result_bind].
    rewrite length_app, length_fmap. cbn [length].
    replace (0 <? length blanks + S (length rest))%nat with true
      by (symmetry; apply Nat.ltb_lt; lia).
    cbn [py_iter]. cbn [mbind result_bind].
    rewrite (scan_rows_blank_app blanks _ Hblanks).
    cbn [scan_rows py_keys]. cbn [mbind result_bind].
    rewrite scan_keys_row, Hrow. cbn. f_equal. lia.
  - intros row Hrow ->. cbn [py_len mbind result_bind].
    rewrite length_app, length_fmap. cbn [length].
    replace (0 <? length blanks + S (length rest))%nat with true
      by (symmetry; apply Nat.ltb_lt; lia).
    cbn [py_iter]. cbn [mbind result_bind].
    rewrite (scan_rows_blank_app blanks _ Hblanks).
    cbn [scan_rows]. by rewrite Hrow.
  - by intros ->.
Qed.

(** ** Names and replies *)

Lemma append_cons (c : ascii) (a b : string) : String c a +:+ b = String c (a +:+ b).
Proof. reflexivity. Qed.

Lemma prefix_iff (sub s : string) :
  String.prefix sub s = true ↔ ∃ post, s = sub +:+ post.
Proof.
  revert s. induction sub as [|a sub IH]; intros s.
  - destruct s; cbn; split; eauto.
  - destruct s as [|b s]; cbn [String.prefix].
    + split; [done|]. intros [post Hpost]. by rewrite append_cons in Hpost.
    + destruct (ascii_dec a b) as [->|Hne].
      * rewrite IH. split; intros [post Hpost]; exists post;
          rewrite append_cons in *; congruence.
      * split; [done|]. intros [post Hpost]. rewrite append_cons in Hpost. congruence.
Qed.

Lemma contains_iff (sub s : string) :
  contains sub s = true ↔ ∃ pre post, s = pre +:+ sub +:+ post.
Proof.
  induction s as [|c s IH].
  - cbn [contains]. rewrite orb_false_r, prefix_iff. split.
    + intros [post ->]. by exists "", post.
    + intros (pre & post & Hs). destruct pre; [by exists post|].
      by rewrite append_cons in Hs.
  - cbn [contains]. rewrite orb_true_iff, prefix_iff, IH. split.
    + intros [[post ->]|(pre & post & ->)]; [by exists "", post|].
      by exists (String c pre), post.
    + intros (pre & post & Hs). destruct pre as [|c' pre]; [left; by exists post|].
      right. rewrite append_cons in Hs. injection Hs as -> ->. by exists pre, post.
Qed.

Lemma lower_ascii_capital (c : ascii) :
  (65 ≤ nat_of_ascii c ≤ 90)%nat →
  lower_ascii c = ascii_of_nat (nat_of_ascii c + 32).
Proof.
  intros [Hlo Hhi]. unfold lower_ascii. cbn zeta.
  by rewrite (proj2 (Nat.leb_le _ _) Hlo), (proj2 (Nat.leb_le _ _) Hhi).
Qed.

Lemma lower_ascii_other (c : ascii) :
  ¬ (65 ≤ nat_of_ascii c ≤ 90)%nat → lower_ascii c = c.
Proof.
  intros Hn. unfold lower_ascii. cbn zeta.
  destruct (Nat.leb_spec 65 (nat_of_ascii c)); [|done].
  destruct (Nat.leb_spec (nat_of_ascii c) 90); [|done]. lia.
Qed.

Lemma same_letter_lower (c : ascii) : same_letter c (lower_ascii c).
Proof.
  destruct (decide (65 ≤ nat_of_ascii c ≤ 90)%nat) as [Hc|Hc].
  - right. left. split; [done|]. rewrite lower_ascii_capital by done.
    apply nat_ascii_embedding. lia.
  - left. by rewrite lower_ascii_other.
Qed.

Lemma lower_ascii_same_letter (c c' : ascii) :
  same_letter c c' → lower_ascii c = lower_ascii c'.
Proof.
  intros [->|[[Hc Hc']|[Hc' Hc]]]; [done|..].
  - rewrite (lower_ascii_capital c Hc), (lower_ascii_other c') by lia.
    by rewrite <- Hc', ascii_nat_embedding.
  - rewrite (lower_ascii_capital c' Hc'), (lower_ascii_other c) by lia.
    by rewrite <- Hc, ascii_nat_embedding.
Qed.

Lemma caseless_lower (s : string) : caseless s (lower s).
Proof. induction s as [|c s IH]; [done|]. split; [apply same_letter_lower|done]. Qed.

Lemma lower_caseless (s t : string) : caseless s t → lower s = lower t.
Proof.
  revert t. induction s as [|c s IH]; intros [|c' t]; try done.
  intros [Hc Hs]. cbn [lower]. by rewrite (lower_ascii_same_letter c c' Hc), (IH t Hs).
Qed.

Lemma lower_app (a b : string) : lower (a +:+ b) = lower a +:+ lower b.
Proof. induction a as [|c a IH]; [done|]. cbn [lower]. rewrite !append_cons. cbn [lower]. by rewrite IH. Qed.

Lemma lower_app_inv (s a b : string) :
  lower s = a +:+ b → ∃ s1 s2, s = s1 +:+ s2 ∧ lower s1 = a ∧ lower s2 = b.
Proof.
  revert s. induction a as [|c a IH]; intros s Hs.
  - by exists "", s.
  - destruct s as [|c' s]; [done|]. rewrite append_cons in Hs. cbn [lower] in Hs.
    injection Hs as Hc Hs. destruct (IH s Hs) as (s1 & s2 & -> & <- & <-).
    exists (String c' s1), s2. rewrite append_cons. cbn [lower]. by rewrite Hc.
Qed.

Lemma contains_lower (word key : string) :
  lower word = word →
  contains word (lower key) = true ↔
  ∃ pre mid post, key = pre +:+ mid +:+ post ∧ caseless mid word.
Proof.
  intros Hw. rewrite contains_iff. split.
  - intros (pre & post & Hs).
    destruct (lower_app_inv _ _ _ Hs) as (k1 & k2 & -> & _ & Hk2).
    destruct (lower_app_inv _ _ _ Hk2) as (mid & k3 & -> & Hmid & _).
    exists k1, mid, k3. split; [done|]. rewrite <- Hmid. apply caseless_lower.
  - intros (pre & mid & post & -> & Hmid).
    exists (lower pre), (lower post).
    by rewrite !lower_app, (lower_caseless _ _ Hmid), Hw.
Qed.

(** The naming heuristic of [__init__] holds exactly when the name contains
    "interaction" or "association" written in any mix of capital and small
    letters, and two names that differ in the case of letters only are judged
    alike. *)
Theorem name_indicates_relationship_substring (key : string) :
  (name_indicates_relationship key = true ↔
   ∃ pre word post, key = pre +:+ word +:+ post ∧
                    (caseless word "interaction" ∨ caseless word "association")) ∧
  (∀ key', caseless key key' →
     name_indicates_relationship key' = name_indicates_relationship key).
Proof.
  unfold name_indicates_relationship. split.
  - rewrite orb_true_iff, !contains_lower by done. split.
    + intros [(pre & mid & post & Hk & Hm)|(pre & mid & post & Hk & Hm)];
        exists pre, mid, post; eauto.
    + intros (pre & mid & post & Hk & [Hm|Hm]); [left|right]; by exists pre, mid, post.
  - intros key' Hk. by rewrite (lower_caseless _ _ Hk).
Qed.

Lemma split_cons (sep : ascii) (s : string) : ∃ piece pieces, split sep s = piece :: pieces.
Proof.
  induction s as [|c s (piece & pieces & IH)]; cbn [split]; [by eexists _, _|].
  destruct (Ascii.eqb c sep); [by eexists _, _|]. rewrite IH. by eexists _, _.
Qed.

Lemma split_concat (sep : ascii) (s : string) :
  String.concat (String sep "") (split sep s) = s.
Proof.
  induction s as [|c s IH]; [done|]. cbn [split].
  destruct (Ascii.eqb_spec c sep) as [->|Hne].
  - destruct (split_cons sep s) as (piece & pieces & Hs). rewrite Hs in *.
    change (String.concat (String sep "") ("" :: piece :: pieces))
      with (String sep (String.concat (String sep "") (piece :: pieces))).
    by rewrite IH.
  - destruct (split_cons sep s) as (piece & pieces & Hs). rewrite Hs in *.
    destruct pieces as [|piece' pieces].
    + cbn in *. by rewrite IH.
    + change (String.concat (String sep "") (String c piece :: piece' :: pieces))
        with (String c (String.concat (String sep "") (piece :: piece' :: pieces))).
      by rewrite IH.
Qed.

Lemma split_no_sep (sep : ascii) (s : string) :
  Forall (fun piece => sep ∉ list_ascii_of_string piece) (split sep s).
Proof.
  induction s as [|c s IH]; cbn [split].
  - apply Forall_singleton. cbn. apply not_elem_of_nil.
  - destruct (Ascii.eqb_spec c sep) as [->|Hne].
    + apply Forall_cons. split; [cbn; apply not_elem_of_nil|done].
    + destruct (split sep s) as [|piece pieces].
      * apply Forall_singleton. cbn. rewrite elem_of_cons, elem_of_nil.
        intros [?|[]]. congruence.
      * apply Forall_cons in IH as [Hp Hps]. apply Forall_cons. split; [|done].
        cbn. rewrite elem_of_cons. intros [?|?]; [congruence|done].
Qed.

(** The names of a reply: none for the empty reply; otherwise at least one,
    none of them with a comma in it, and joined by commas they give the reply
    back (so blanks around a name stay part of the name). *)
Theorem reply_names_split (msg : string) :
  (reply_names msg = [] ↔ msg = "") ∧
  Forall (fun name => "," %char ∉ list_ascii_of_string name) (reply_names msg) ∧
  String.concat "," (reply_names msg) = msg.
Proof.
  unfold reply_names. destruct (String.eqb_spec msg "") as [->|Hne].
  - split; [done|]. split; [constructor|done].
  - split; [|split].
    + destruct (split_cons "," msg) as (piece & pieces & ->). split; [done|]. intros ->. done.
    + apply split_no_sep.
    + apply split_concat.
Qed.

(** ** The schema index, entry by entry *)

Section SchemaLookup.

Variable sentencecase_to_pascalcase : string → string.

Lemma index_entry_keeps idx key value name :
  ((sentencecase_to_pascalcase key = name → ¬ entity_entry key value) →
   (index_entry sentencecase_to_pascalcase idx (key, value)).1 !! name = idx.1 !! name) ∧
  ((sentencecase_to_pascalcase key = name → ¬ relationship_entry key value) →
   (index_entry sentencecase_to_pascalcase idx (key, value)).2 !! name = idx.2 !! name).
Proof.
  unfold index_entry, entity_entry, relationship_entry, represented_as.
  rewrite <- name_indicates_relationship_iff.
  destruct (value !! "represented_as") as [r|]; [|done].
  destruct (py_eq_str r "node") eqn:Hnode;
    [apply py_eq_str_iff in Hnode as ->|apply py_eq_str_false in Hnode].
  - destruct (name_indicates_relationship key); cbn [andb negb fst snd py_eq_str String.eqb].
    + split; [done|]. intros Hno.
      destruct (decide (sentencecase_to_pascalcase key = name)) as [Heq|Hne].
      * destruct (Hno Heq). by right.
      * by rewrite lookup_insert_ne.
    + split; [|done]. intros Hno.
      destruct (decide (sentencecase_to_pascalcase key = name)) as [Heq|Hne].
      * destruct (Hno Heq). split; [done|]. congruence.
      * by rewrite lookup_insert_ne.
  - cbn [andb].
    destruct (py_eq_str r "edge") eqn:Hedge;
      [apply py_eq_str_iff in Hedge as ->|]; cbn [fst snd]; [|done].
    split; [done|]. intros Hno.
    destruct (decide (sentencecase_to_pascalcase key = name)) as [Heq|Hne].
    + destruct (Hno Heq). by left.
    + by rewrite lookup_insert_ne.
Qed.

Lemma foldl_index_entry_keeps schema idx name :
  let idx' := foldl (index_entry sentencecase_to_pascalcase) idx schema in
  ((∀ key value, (key, value) ∈ schema → entity_entry key value →
      sentencecase_to_pascalcase key ≠ name) →
   idx'.1 !! name = idx.1 !! name) ∧
  ((∀ key value, (key, value) ∈ schema → relationship_entry key value →
      sentencecase_to_pascalcase key ≠ name) →
   idx'.2 !! name = idx.2 !! name).
Proof.
  revert idx. induction schema as [|[key value] schema IH]; intros idx; cbn zeta; [done|].
  cbn [foldl]. destruct (IH (index_entry sentencecase_to_pascalcase idx (key, value)))
    as [He Hr].
  destruct (index_entry_keeps idx key value name) as [He1 Hr1].
  split; intros Hno.
  - rewrite He, He1; [done| |].
    + intros Heq Hent. apply (Hno key value); [left|done..].
    + intros k v Hin. apply Hno. by right.
  - rewrite Hr, Hr1; [done| |].
    + intros Heq Hent. apply (Hno key value); [left|done..].
    + intros k v Hin. apply Hno. by right.
Qed.

(** A name holds the record of the last schema entry that was classified
    under it: an entry of [entities] is found under its Pascal-case name
    unless a later entity entry has the same one, and likewise for
    [relationships]. *)
Theorem schema_index_last_entry (before after : list (string * gmap string json))
    (key : string) (value : gmap string json) :
  let self := BioCypherPrompt__init__ sentencecase_to_pascalcase
                (before ++ (key, value) :: after) in
  (entity_entry key value →
   (∀ k v, (k, v) ∈ after → entity_entry k v →
      sentencecase_to_pascalcase k ≠ sentencecase_to_pascalcase key) →
   entities self !! sentencecase_to_pascalcase key = Some value) ∧
  (relationship_entry key value →
   (∀ k v, (k, v) ∈ after → relationship_entry k v →
      sentencecase_to_pascalcase k ≠ sentencecase_to_pascalcase key) →
   relationships self !! sentencecase_to_pascalcase key = Some value).
Proof.
  cbn zeta. unfold BioCypherPrompt__init__. cbn [entities relationships].
  rewrite foldl_app. cbn [foldl].
  set (idx := foldl _ (∅, ∅) before).
  destruct (foldl_index_entry_keeps after
              (index_entry sentencecase_to_pascalcase idx (key, value))
              (sentencecase_to_pascalcase key)) as [He Hr]. cbn zeta in He, Hr.
  destruct (index_entry_classifies sentencecase_to_pascalcase idx key value)
    as (Hce & Hcr & _).
  split; intros Hentry Hlater.
  - rewrite He by done. rewrite (Hce Hentry). cbn [fst]. apply lookup_insert_eq.
  - rewrite Hr by done. rewrite (Hcr Hentry). cbn [snd]. apply lookup_insert_eq.
Qed.

(** When the entries of the schema have different Pascal-case names, no name
    is a key of both mappings. *)
Theorem schema_index_disjoint (schema_config : list (string * gmap string json)) (name : string) :
  NoDup (sentencecase_to_pascalcase <$> schema_config.*1) →
  let self := BioCypherPrompt__init__ sentencecase_to_pascalcase schema_config in
  entities self !! name = None ∨ relationships self !! name = None.
Proof.
  intros Hnodup. cbn zeta. unfold BioCypherPrompt__init__. cbn [entities relationships].
  destruct (foldl_index_entry sentencecase_to_pascalcase schema_config (∅, ∅) name)
    as [He Hr]. cbn zeta in He, Hr. cbn [fst snd] in He, Hr. rewrite lookup_empty in He, Hr.
  set (idx := foldl _ (∅, ∅) schema_config) in *.
  destruct (idx.1 !! name) as [e|] eqn:Hen; [|by left].
  destruct (idx.2 !! name) as [r|] eqn:Hrn; [|by right].
  exfalso.
  destruct (proj1 He (mk_is_Some _ _ eq_refl)) as [[]%is_Some_None|(k1 & v1 & Hin1 & Hk1 & [Hnode Hname])].
  destruct (proj1 Hr (mk_is_Some _ _ eq_refl)) as [[]%is_Some_None|(k2 & v2 & Hin2 & Hk2 & Hrel)].
  assert (Hsame : (sentencecase_to_pascalcase k1, (k1, v1)) =
                  (sentencecase_to_pascalcase k2, (k2, v2)) → False).
  { intros [= _ -> ->]. unfold represented_as in *.
    destruct Hrel as [Hedge|[_ Hrel]]; [congruence|done]. }
  apply Hsame.
  set (keyed := (fun kv : string * gmap string json =>
                   (sentencecase_to_pascalcase kv.1, kv)) <$> schema_config).
  assert (Hkeyed : NoDup keyed.*1).
  { replace (keyed.*1) with (sentencecase_to_pascalcase <$> schema_config.*1); [done|].
    unfold keyed. rewrite <- !list_fmap_compose. by apply list_fmap_ext. }
  assert (H1 : (sentencecase_to_pascalcase k1, (k1, v1)) ∈ keyed).
  { unfold keyed. apply list_elem_of_fmap. by exists (k1, v1). }
  assert (H2 : (sentencecase_to_pascalcase k2, (k2, v2)) ∈ keyed).
  { unfold keyed. apply list_elem_of_fmap. by exists (k2, v2). }
  apply (elem_of_list_to_map (M := gmap string) _ _ _ Hkeyed) in H1, H2.
  rewrite Hk1 in H1. rewrite Hk2 in H2. congruence.
Qed.

End SchemaLookup.

(** ** What the selections store *)

Section SelectionEffects.

Variable entity_selector :
  gmap string (gmap string json) → gmap string (gmap string json) → string → result string.
Variable property_selector :
  gmap string (list string) → gmap string (list string) → string → result text.

Context {key_order : KeyOrder}.

Lemma foldl_select_name_labels (names : list string) (self : BioCypherPrompt) :
  let self' := foldl select_name self names in
  question self' = question self ∧
  selected_properties self' = selected_properties self ∧
  selected_relationship_labels self' =
    selected_relationship_labels self ++ (edge_label self <$> added_relationships self names).
Proof.
  revert self. induction names as [|name names IH]; intros self; cbn zeta.
  - cbn. by rewrite app_nil_r.
  - cbn [foldl]. destruct (IH (select_name self name)) as (Hq & Hp & Hl).
    destruct (select_name_schema self name) as [He1 Hr1].
    rewrite Hq, Hp, Hl. unfold added_relationships, edge_label.
    rewrite !filter_cons, He1, Hr1. unfold select_name.
    destruct (entities self !! name) as [e|] eqn:Hen;
      cbn [question selected_properties selected_relationship_labels].
    + rewrite decide_False by (intros [? _]; done). done.
    + destruct (relationships self !! name) as [r|] eqn:Hrn;
        cbn [question selected_properties selected_relationship_labels].
      * rewrite decide_True by eauto. cbn [fmap list_fmap]. rewrite Hrn. cbn.
        by rewrite <- app_assoc.
      * rewrite decide_False by (intros [_ []]; done). done.
Qed.

(** [select_entities] returns [True] for every non-empty reply, also when no
    name of the reply was selected, and [False] for the empty reply. *)
Theorem select_entities_returns (self : BioCypherPrompt) (question msg : string) :
  entity_selector (entities self) (relationships self) question = Ok msg →
  (select_entities entity_selector question self).1 = Ok (negb (String.eqb msg "")).
Proof.
  intros Hmsg. unfold select_entities, set_question.
  unfold mbind, M_bind, modify, get, lift, mret, M_ret.
  cbn [entities relationships]. rewrite Hmsg. cbn [fst].
  unfold reply_names. destruct (String.eqb msg ""); [done|].
  by destruct (split_cons "," msg) as (piece & pieces & ->).
Qed.

(** What [select_entities] leaves and what it stores: the schema index and
    the selected properties are untouched, the question is stored, and every
    relationship it selects gets its label, ["label_as_edge"] or else the
    name, at the same place of [selected_relationship_labels].  When the
    query of the language model raises, only the question is stored. *)
Theorem select_entities_frame (self : BioCypherPrompt) (q : string) :
  match entity_selector (entities self) (relationships self) q with
  | Ok msg =>
      let self' := (select_entities entity_selector q self).2 in
      entities self' = entities self ∧
      relationships self' = relationships self ∧
      question self' = q ∧
      selected_properties self' = selected_properties self ∧
      selected_relationship_labels self' =
        selected_relationship_labels self ++
        (edge_label self <$> added_relationships self (reply_names msg))
  | Raise e =>
      select_entities entity_selector q self = (Raise e, with_question self q)
  end.
Proof.
  unfold select_entities, set_question.
  unfold mbind, M_bind, modify, get, lift, mret, M_ret.
  cbn [entities relationships].
  destruct (entity_selector _ _ _) as [msg|e]; [|done]. cbn [snd].
  match goal with |- context [foldl select_name ?s _] =>
    destruct (foldl_select_name (reply_names msg) s) as (He & Hr & _ & _);
    destruct (foldl_select_name_labels (reply_names msg) s) as (Hq & Hp & Hl) end.
  cbn zeta in *. by rewrite He, Hr, Hq, Hp, Hl.
Qed.





(** [select_properties] changes nothing but [selected_properties]: the
    schema index, the stored question (also when a question is passed) and
    the selections of [select_entities] stay as they are, whatever the
    outcome. *)
Theorem select_properties_frame (self : BioCypherPrompt) (question_ : option string)
    (entities_ relationships_ : option (list string)) :
  let self' := (select_properties property_selector question_ entities_ relationships_ self).2 in
  self' = self ∨ ∃ p, self' = with_selected_properties self p.
Proof.
  cbn zeta. unfold select_properties, set_selected_properties.
  unfold mbind, M_bind, modify, get, lift, mret, M_ret.
  destruct (String.eqb _ _); [by left|].
  destruct (or_list entities_ _) as [|e es] eqn:Hes;
    [destruct (or_list relationships_ _) as [|r rs] eqn:Hrs; [by left|]|].
  all: destruct (props_of (entities self) _ _); [|by left].
  all: destruct (props_of (relationships self) _ _); [|by left].
  all: destruct (property_selector _ _ _) as [msg|]; [|by left].
  all: destruct (if text_truthy msg then _ else _) as [p|]; [|by left].
  all: right; by exists p.
Qed.

(** The reply of the language model is used as it is: an empty reply selects
    the empty dictionary and returns [False]; a JSON reply becomes
    [selected_properties], whatever the schema says, and the return value is
    its truth value; any other reply raises [JSONDecodeError] and selects
    nothing. *)
Theorem select_properties_reply (self : BioCypherPrompt) (question_ : option string)
    (entities_ relationships_ : option (list string))
    (e_props r_props : gmap string (list string)) (msg : text) :
  let q := or_str question_ (question self) in
  let es := or_list entities_ (selected_entities self) in
  let rs := or_list relationships_ (selected_relationships self) in
  q ≠ "" → es ++ rs ≠ [] →
  props_of (entities self) es ∅ = Ok e_props →
  props_of (relationships self) rs ∅ = Ok r_props →
  property_selector e_props r_props q = Ok msg →
  select_properties property_selector question_ entities_ relationships_ self =
    match msg with
    | Serialized j => (Ok (py_truthy j), with_selected_properties self j)
    | NotJson "" => (Ok false, with_selected_properties self (JObj ∅))
    | NotJson _ => (Raise JSONDecodeError, self)
    end.
Proof.
  cbn zeta.
  remember (or_list entities_ (selected_entities self)) as es eqn:Hes.
  remember (or_list relationships_ (selected_relationships self)) as rs eqn:Hrs.
  intros Hq Hnames He Hr Hmsg.
  unfold select_properties, set_selected_properties.
  unfold mbind, M_bind, modify, get, lift, mret, M_ret.
  rewrite <- Hes, <- Hrs, (proj2 (String.eqb_neq _ _) Hq).
  destruct es as [|e es']; [destruct rs as [|r rs']; [done|]|];
    rewrite He, Hr, Hmsg; by destruct msg as [[|c t]|j].
Qed.

(** A name passed as an entity that is not a key of [entities] raises
    [KeyError] before the language model is asked, and selects nothing. *)
Theorem select_properties_unknown_entity (self : BioCypherPrompt)
    (question_ : option string) (entities_ relationships_ : option (list string))
    (name : string) (rest : list string) :
  or_str question_ (question self) ≠ "" →
  or_list entities_ (selected_entities self) = name :: rest →
  entities self !! name = None →
  select_properties property_selector question_ entities_ relationships_ self =
    (Raise (KeyError name), self).
Proof.
  intros Hq Hes Hname.
  unfold select_properties. unfold mbind, M_bind, get, lift.
  rewrite (proj2 (String.eqb_neq _ _) Hq), Hes. cbn [props_of]. by rewrite Hname.
Qed.

End SelectionEffects.

(** ** Instances of the further properties *)

(** A first connection to the sample database stores its driver. *)
Lemma connect_db_cases_witness :
  @_connect_db unit sample_db sample_store = (Ok tt, with_neodriver sample_store tt).
Proof.
  apply (proj1 (proj2 (@connect_db_cases unit sample_db sample_store))
           "localhost" "7687" tt); reflexivity.
Defined.

(** A query against the database that cannot be reached. *)
Lemma query_graph_database_unconnected_witness :
  @_query_graph_database unit unreachable_db (JStr gene_query) sample_store =
    (Ok [], with_logged (with_logged sample_store (Exception "ServiceUnavailable"))
              AttributeError).
Proof.
  apply (@query_graph_database_unconnected unit unreachable_db (JStr gene_query)
           sample_store "localhost" "7687" (Exception "ServiceUnavailable"));
    reflexivity.
Defined.

(** A proposal that revises to the gene query. *)
Lemma run_tool_call_revised_witness :
  ∃ response s1,
    @_query_graph_database unit sample_db (JStr gene_query) sample_store =
      (Ok response, s1) ∧
    @run_tool_call unit sample_db (revise_query "call_2" gene_query) sample_store =
      match response with
      | [] => (Ok tt, with_logged s1 IndexError)
      | item :: _ => (Ok tt, with_result s1 (tool_result (JStr gene_query) item))
      end.
Proof.
  apply (@run_tool_call_revised unit sample_db "call_2"
           (tc_args (revise_query "call_2" gene_query)) sample_store).
  vm_compute. discriminate.
Defined.

(** A malformed first search query: the gene query after it is not run. *)
Lemma search_queries_stop_at_failure_witness :
  @run_tool_call unit sample_db
    (generate_query "call_1" ["MATCH (g:Gene"; gene_query]) sample_store =
    (Ok tt,
     with_logged
       (with_logged (with_neodriver sample_store tt)
          (Exception "Neo.ClientError.Statement.SyntaxError"))
       IndexError).
Proof.
  apply (@search_queries_stop_at_failure unit sample_db "call_1"
           (tc_args (generate_query "call_1" ["MATCH (g:Gene"; gene_query]))
           [] [JStr gene_query] (JStr "MATCH (g:Gene") sample_store sample_store
           (with_logged (with_neodriver sample_store tt)
              (Exception "Neo.ClientError.Statement.SyntaxError")));
    vm_compute; reflexivity.
Defined.

(** A state that ends in an assistant message without a tool call. *)
Lemma tool_function_without_tool_call_witness :
  @_tool_function unit sample_db
    [HumanMessage "Which genes are there?"; AIMessage []] sample_store =
    (Raise UnboundLocalError, sample_store).
Proof.
  apply (proj2 (@tool_function_without_tool_call unit sample_db sample_store)
           [HumanMessage "Which genes are there?"; AIMessage []]
           (AIMessage [])); reflexivity.
Defined.

(** The database of the protein rows answers with lists of rows. *)
Lemma protein_db_rows : @rows_driver unit protein_db.
Proof.
  intros d query item rest [= <- <-].
  by exists [{[ "p.name" := JStr "P04637" ]}; {[ "p.name" := JNull ]}].
Qed.

(** The protein query and the pathway query, which has no rows: the protein record is kept. *)
Lemma tool_function_message_kept_witness :
  let calls := [generate_query "call_1" [protein_query; pathway_query]] in
  @_tool_function unit sample_db
    [HumanMessage "Which proteins are there?"; AIMessage calls] sample_store =
    (Ok (ToolMessage (json_dumps (tool_result (JStr protein_query) protein_rows)) "call_1"),
     @after_calls unit sample_db calls sample_store).
Proof.
  cbn zeta.
  apply (@tool_function_message_kept unit sample_db
           [HumanMessage "Which proteins are there?";
            AIMessage [generate_query "call_1" [protein_query; pathway_query]]]
           [generate_query "call_1" [protein_query; pathway_query]]
           (generate_query "call_1" [protein_query; pathway_query]) sample_store);
    [reflexivity|reflexivity|].
  replace (results _) with
    [tool_result (JStr protein_query) protein_rows;
     tool_result (JStr pathway_query) (JArr [])] by (vm_compute; reflexivity).
  repeat constructor.
  - by exists (JStr protein_query), [{[ "p.name" := JStr "P04637" ]}; {[ "p.name" := JNull ]}].
  - by exists (JStr pathway_query), [].
Defined.

(** A tool step against the database of the protein rows. *)
Lemma tool_step_count_witness :
  let state := [HumanMessage "Which proteins are there?";
                AIMessage [generate_query "call_1" [protein_query]]] in
  ∃ msg,
    (@_tool_function unit protein_db state sample_store).1 = Ok msg ∧
    (kept_record (results (@_tool_function unit protein_db state sample_store).2) = None ↔
     results (@_tool_function unit protein_db state sample_store).2 = []) ∧
    match kept_record (results (@_tool_function unit protein_db state sample_store).2) with
    | None => _get_last_tool_results_num (state ++ [msg]) = Raise JSONDecodeError
    | Some r =>
        ∃ query (rows : list (gmap string json)),
          r = tool_result query (JArr (JObj <$> rows)) ∧
          _get_last_tool_results_num (state ++ [msg]) =
            Ok (if forallb row_blank rows then 0 else length rows)%nat
    end.
Proof.
  cbn zeta.
  apply (@tool_step_count unit protein_db _
           [generate_query "call_1" [protein_query]]
           (generate_query "call_1" [protein_query]) sample_store);
    [exact protein_db_rows|reflexivity|reflexivity].
Defined.

(** A state with two tool messages and a revision after the second. *)
Lemma get_last_tool_results_num_last_witness :
  let content := json_dumps (tool_result (JStr gene_query) gene_rows) in
  _get_last_tool_results_num
    ([HumanMessage "Which genes are there?";
      ToolMessage (NotJson "") "call_0";
      AIMessage [generate_query "call_1" [gene_query]]] ++
     ToolMessage content "call_1" :: [AIMessage [revise_query "call_2" gene_query]]) =
    count_results content ∧
  _get_last_tool_results_num [AIMessage [revise_query "call_2" gene_query]] = Ok 0%nat.
Proof.
  cbn zeta.
  apply (get_last_tool_results_num_last
           [HumanMessage "Which genes are there?";
            ToolMessage (NotJson "") "call_0";
            AIMessage [generate_query "call_1" [gene_query]]]
           [AIMessage [revise_query "call_2" gene_query]]).
  by repeat constructor.
Defined.

(** A blank row, a row with a value, and a number where a row should be: three rows are counted. *)
Lemma count_results_reads_lazily_witness :
  count_results
    (json_dumps (tool_result (JStr protein_query)
       (JArr [JObj {[ "p.name" := JNull ]}; JObj {[ "p.name" := JStr "P04637" ]};
              JNum 7]))) = Ok 3%nat.
Proof.
  assert (Hblanks : forallb row_blank [{[ "p.name" := JNull ]}] = true)
    by (vm_compute; reflexivity).
  apply (proj1 (count_results_reads_lazily
                  {[ "query" := JStr protein_query;
                     "result" := JArr [JObj {[ "p.name" := JNull ]};
                                       JObj {[ "p.name" := JStr "P04637" ]}; JNum 7] ]}
                  [{[ "p.name" := JNull ]}] [JNum 7] Hblanks)
           {[ "p.name" := JStr "P04637" ]}); vm_compute; reflexivity.
Defined.

(** The first entry of the sample schema, which no later entry overwrites. *)
Lemma schema_index_last_entry_witness :
  entities sample_prompt !! "Protein" = Some {[ "represented_as" := JStr "node" ]}.
Proof.
  apply (proj1 (schema_index_last_entry (fun name => name) []
                  [("GeneDiseaseAssociation", {[ "represented_as" := JStr "node" ]});
                   ("Binds", {[ "represented_as" := JStr "edge";
                                "label_as_edge" := JStr "BINDS" ]});
                   ("Comment", ∅)]
                  "Protein" {[ "represented_as" := JStr "node" ]})).
  - split; [reflexivity|]. intros [Hname|Hname]; vm_compute in Hname; discriminate.
  - intros k v Hin _ Hk. subst k.
    repeat (apply elem_of_cons in Hin as [Hin|Hin]; [discriminate Hin|]).
    by apply elem_of_nil in Hin.
Defined.

(** The names of the sample schema are different. *)
Lemma schema_index_disjoint_witness :
  entities sample_prompt !! "Binds" = None ∨ relationships sample_prompt !! "Binds" = None.
Proof.
  apply (schema_index_disjoint (fun name => name) sample_schema "Binds").
  apply (bool_decide_unpack _). vm_compute. exact I.
Defined.

(** The reply of the sample entity selector is not empty. *)
Lemma select_entities_returns_witness :
  (select_entities sample_entity_selector "Which proteins bind?" sample_prompt).1 =
    Ok true.
Proof.
  apply (select_entities_returns sample_entity_selector sample_prompt
           "Which proteins bind?" "Protein,Binds,Pathway").
  reflexivity.
Defined.


(** A JSON reply that selects the name of the proteins. *)
Lemma select_properties_reply_witness :
  select_properties name_property_selector (Some "Which proteins are human?")
    (Some ["Protein"]) None detailed_prompt =
    (Ok true,
     with_selected_properties detailed_prompt (JObj {[ "Protein" := JArr [JStr "name"] ]})).
Proof.
  rewrite (select_properties_reply name_property_selector detailed_prompt
             (Some "Which proteins are human?") (Some ["Protein"]) None
             {[ "Protein" := ["name"; "taxon"] ]} ∅
             (json_dumps (JObj {[ "Protein" := JArr [JStr "name"] ]})));
    [vm_compute; reflexivity|discriminate|discriminate|vm_compute; reflexivity..].
Defined.

(** A pathway is no entity of the sample schema. *)
Lemma select_properties_unknown_entity_witness :
  select_properties sample_property_selector (Some "Which pathways are there?")
    (Some ["Pathway"]) None sample_prompt =
    (Raise (KeyError "Pathway"), sample_prompt).
Proof.
  apply (select_properties_unknown_entity sample_property_selector sample_prompt
           (Some "Which pathways are there?") (Some ["Pathway"]) None "Pathway" []);
    [discriminate|reflexivity|vm_compute; reflexivity].
Defined.
